(** * Verification of [bin/ci/ci_run_n_monitor.py]

    A shallow embedding of the pipeline monitor: the per-job bookkeeping of
    [monitor_pipeline], its termination checks, the log streamer [print_log]
    and the tail of the script's entry point, followed by the properties of
    the specification that concern them. *)

From Stdlib Require Import ZArith Lia Ascii.
From stdpp Require Import base option list strings gmap.

Local Open Scope Z_scope.

(** ** Strings and statuses *)

(** Python's [needle in hay] on two [str] values: substring search. *)
Fixpoint str_in (needle hay : string) : bool :=
  String.prefix needle hay ||
  match hay with
  | EmptyString => false
  | String _ hay' => str_in needle hay'
  end.

(** Python's [x in [a, b, ...]] on a list of strings: membership by equality. *)
Definition list_in (x : string) (l : list string) : bool :=
  existsb (String.eqb x) l.

(** The statuses a job can have, as listed by the keys of [STATUS_COLORS]. *)
Definition STATUSES : list string :=
  ["created"; "running"; "success"; "failed";
   "canceled"; "manual"; "pending"; "skipped"].

(** The colour prefixes of colorama's [Fore]; [Plain] is the empty string. *)
Inductive colour := Plain | BLUE | GREEN | RED | MAGENTA.

Definition STATUS_COLORS : list (string * colour) :=
  [("created", Plain); ("running", BLUE); ("success", GREEN);
   ("failed", RED); ("canceled", MAGENTA); ("manual", Plain);
   ("pending", Plain); ("skipped", Plain)].

Definition COMPLETED_STATUSES : list string := ["success"; "failed"].

Definition REFRESH_WAIT_LOG : Z := 10.
Definition REFRESH_WAIT_JOBS : Z := 6.

(** [d[key]] on an association table; [None] stands for [KeyError]. *)
Fixpoint assoc {A} (key : string) (d : list (string * A)) : option A :=
  match d with
  | [] => None
  | (k, v) :: d' => if String.eqb key k then Some v else assoc key d'
  end.

(** ** Jobs, observable actions, local variables *)

Record job := Job {
  job_id : Z;
  job_name : string;
  job_status : string;
  job_web_url : string
}.

(** Which of the two history dictionaries a store goes to. *)
Inductive history := General | Target.

(** Label printed by [enable_job] and [retry_job]. *)
Inductive jtype := TargetGlyph | DependencyLabel | RetryGlyph.

(** Everything the script does to the outside world, plus the stores into
    the two history dictionaries, in program order. *)
Inductive event :=
| PrintStatus (c : colour) (j : job)         (* print_job_status *)
| PrintStatusChange (c : colour) (j : job)   (* print_job_status_change *)
| Store (h : history) (id : Z) (st : string) (* h[id] = st *)
| Play (id : Z)                              (* pjob.play() *)
| Retry (id : Z)                             (* pjob.retry() *)
| Cancel (id : Z)                            (* pjob.cancel() *)
| PrintEnabled (t : jtype) (name : string)
| PrintCancelled (name : string)
| PrintNewline
| PrintTally (succ fail : Z)
| PrintSeparator
| Wait (sec : Z)                             (* pretty_wait *)
| PrintLine (line : string)                  (* one line of a job log *)
| PrintFinished (url : string)
| PrintDuration.

Inductive exn :=
| KeyError (key : string)
| StopIteration
| UnicodeDecodeError.

(** The local variables of [monitor_pipeline]. *)
Record locals := Locals {
  statuses : gmap Z string;
  target_statuses : gmap Z string;
  stress_succ : Z;
  stress_fail : Z;
  to_cancel : list job
}.

Definition set_statuses (f : gmap Z string → gmap Z string) (s : locals) :=
  Locals (f (statuses s)) (target_statuses s) (stress_succ s) (stress_fail s)
         (to_cancel s).
Definition set_target_statuses (f : gmap Z string → gmap Z string) (s : locals) :=
  Locals (statuses s) (f (target_statuses s)) (stress_succ s) (stress_fail s)
         (to_cancel s).
Definition set_stress_succ (f : Z → Z) (s : locals) :=
  Locals (statuses s) (target_statuses s) (f (stress_succ s)) (stress_fail s)
         (to_cancel s).
Definition set_stress_fail (f : Z → Z) (s : locals) :=
  Locals (statuses s) (target_statuses s) (stress_succ s) (f (stress_fail s))
         (to_cancel s).
Definition set_to_cancel (f : list job → list job) (s : locals) :=
  Locals (statuses s) (target_statuses s) (stress_succ s) (stress_fail s)
         (f (to_cancel s)).

(** ** A monad for the body of the loop: local variables, output, exceptions *)

Definition M (A : Type) : Type := locals → list event * (exn + A * locals).

Definition ret {A} (a : A) : M A := λ s, ([], inr (a, s)).

Definition bind {A B} (f : A → M B) (m : M A) : M B := λ s,
  match m s with
  | (out, inl e) => (out, inl e)
  | (out, inr (a, s')) =>
      match f a s' with (out', r) => (out ++ out', r) end
  end.

#[global] Instance M_ret : MRet M := @ret.
#[global] Instance M_bind : MBind M := @bind.

Definition emit (e : event) : M unit := λ s, ([e], inr (tt, s)).
Definition raise {A} (e : exn) : M A := λ s, ([], inl e).
Definition gets {A} (f : locals → A) : M A := λ s, ([], inr (f s, s)).
Definition modify (f : locals → locals) : M unit := λ s, ([], inr (tt, f s)).
Definition when (b : bool) (m : M unit) : M unit := if b then m else ret tt.

(** [for x in l: body x] *)
Fixpoint for_each {A} (l : list A) (body : A → M unit) : M unit :=
  match l with
  | [] => ret tt
  | x :: l' => body x ;; for_each l' body
  end.

(** ** Printing helpers *)

Definition status_color (j : job) : M colour :=
  match assoc (job_status j) STATUS_COLORS with
  | Some c => ret c
  | None => raise (KeyError (job_status j))
  end.

Definition print_job_status (j : job) : M unit :=
  if String.eqb (job_status j) "canceled" then ret tt
  else c ← status_color j; emit (PrintStatus c j).

Definition print_job_status_change (j : job) : M unit :=
  if String.eqb (job_status j) "canceled" then ret tt
  else c ← status_color j; emit (PrintStatusChange c j).

Definition pretty_wait (sec : Z) : M unit := emit (Wait sec).

(** ** Remote actions *)

Definition enable_job (j : job) (target : bool) : M unit :=
  emit (Play (job_id j)) ;;
  emit (PrintEnabled (if target then TargetGlyph else DependencyLabel)
                     (job_name j)).

Definition retry_job (j : job) : M unit :=
  emit (Retry (job_id j)) ;;
  emit (PrintEnabled RetryGlyph (job_name j)).

Definition cancel_job (j : job) : M unit :=
  emit (Cancel (job_id j)) ;;
  emit (PrintCancelled (job_name j)).

(** The worker pool runs [cancel_job] once for every element of the list; the
    model issues the requests in list order. *)
Definition cancel_jobs (l : list job) : M unit :=
  match l with
  | [] => ret tt
  | _ => for_each l cancel_job ;; emit PrintNewline
  end.

(** ** [monitor_pipeline] *)

(** The truth value of a Python set: it is not empty. *)
Definition nonempty (s : gset string) : bool := bool_decide (s ≠ ∅).

(** [d.values()] *)
Definition values (d : gmap Z string) : list string := (map_to_list d).*2.

(** How a call stands after some iterations of its [while True]. *)
Inductive outcome (R S : Type) :=
| Returned (r : R)
| Raised (e : exn)
| Looping (s : S).
Arguments Returned {R S} r.
Arguments Raised {R S} e.
Arguments Looping {R S} s.

Section monitor.

(** [re_match p name] tells whether [re.compile(p.strip()).match(name)]
    finds a match; the regular-expression engine is not part of the script. *)
Variable re_match : string → string → bool.

(** [pipeline k] is the answer of the [k]-th [pipeline.jobs.list(all=True)]. *)
Variable pipeline : nat → list job.
Variable target_job : option string.
Variable dependencies : gset string.
Variables force_manual stress : bool.

(** The truth value of [target_job]: neither [None] nor the empty string. *)
Definition target_given : bool :=
  match target_job with
  | Some p => negb (String.eqb p "")
  | None => false
  end.

(** [target_job and target_jobs_regex.match(job.name)] *)
Definition matches_target (j : job) : bool :=
  match target_job with
  | Some p => negb (String.eqb p "") && re_match p (job_name j)
  | None => false
  end.

(** [(job.id not in hist) or (job.status not in hist[job.id])] *)
Definition status_changed (hist : gmap Z string) (j : job) : bool :=
  match hist !! job_id j with
  | None => true
  | Some old => negb (str_in (job_status j) old)
  end.

(** The branch of the [for] body taken by a target job, up to [continue]. *)
Definition target_body (j : job) : M unit :=
  when (force_manual && String.eqb (job_status j) "manual")
    (enable_job j true) ;;
  when (stress && list_in (job_status j) ["success"; "failed"])
    (when (String.eqb (job_status j) "success")
       (modify (set_stress_succ (λ n, n + 1))) ;;
     when (String.eqb (job_status j) "failed")
       (modify (set_stress_fail (λ n, n + 1))) ;;
     retry_job j) ;;
  ts ← gets target_statuses;
  if status_changed ts j then
    print_job_status_change j ;;
    emit (Store Target (job_id j) (job_status j)) ;;
    modify (set_target_statuses <[job_id j := job_status j]>)
  else
    print_job_status j.

(** The rest of the [for] body: all other jobs. *)
Definition other_body (j : job) : M unit :=
  ss ← gets statuses;
  when (status_changed ss j)
    (print_job_status_change j ;;
     emit (Store General (job_id j) (job_status j)) ;;
     modify (set_statuses <[job_id j := job_status j]>)) ;;
  if bool_decide (job_name j ∈ dependencies) then
    when (String.eqb (job_status j) "manual") (enable_job j false)
  else
    when (target_given &&
          negb (list_in (job_status j)
                  ["canceled"; "success"; "failed"; "skipped"]))
      (modify (set_to_cancel (λ l, l ++ [j]))).

Definition job_body (j : job) : M unit :=
  if matches_target j then target_body j else other_body j.

(** The termination checks at the end of an iteration when [stress] is off;
    [None] means that the loop goes on. *)
Definition evaluate : M (option (option Z * option Z)) :=
  emit PrintSeparator ;;
  ts ← gets target_statuses;
  if (size ts =? 1)%nat &&
     nonempty ({["running"]} ∩ list_to_set (values ts)) then
    match map_to_list ts with
    | (first, _) :: _ => mret (Some (Some first, None))
    | [] => raise StopIteration
    end
  else if nonempty ({["failed"; "canceled"]} ∩ list_to_set (values ts)) then
    mret (Some (None, Some 1))
  else if bool_decide (list_to_set (values ts) ⊆@{gset string}
                         {["success"; "manual"]}) then
    mret (Some (None, Some 0))
  else
    pretty_wait REFRESH_WAIT_JOBS ;; mret None.

(** The first half of the body of [while True], on the [k]-th job list:
    the scan of the jobs and the cancellations. *)
Definition dispatch (k : nat) : M unit :=
  modify (set_to_cancel (λ _, [])) ;;
  for_each (pipeline k) job_body ;;
  when target_given (l ← gets to_cancel; cancel_jobs l).

(** The [if stress:] block, which ends in [continue]. *)
Definition stress_report : M (option (option Z * option Z)) :=
  succ ← gets stress_succ;
  fail ← gets stress_fail;
  emit (PrintTally succ fail) ;;
  pretty_wait REFRESH_WAIT_JOBS ;;
  mret None.

(** One pass through the body of [while True]. *)
Definition iteration (k : nat) : M (option (option Z * option Z)) :=
  dispatch k ;;
  if stress then stress_report else evaluate.

(** [n] iterations of the loop, the first of them on job list [k]. *)
Fixpoint monitor_loop (n k : nat) (s : locals)
  : list event * outcome (option Z * option Z) locals :=
  match n with
  | O => ([], Looping s)
  | S n' =>
      match iteration k s with
      | (out, inl e) => (out, Raised e)
      | (out, inr (Some r, _)) => (out, Returned r)
      | (out, inr (None, s')) =>
          match monitor_loop n' (S k) s' with
          | (out', o) => (out ++ out', o)
          end
      end
  end.

(** The call, from the four assignments of lines 100-103 on, given [n]
    iterations. The pattern is taken to have compiled: [re.compile] of
    line 106 belongs to the engine, as the matching of [re_match] does. *)
Definition monitor_pipeline (n : nat) :=
  monitor_loop n 0 (Locals ∅ ∅ 0 0 []).

End monitor.

(** ** [print_log] *)

(** What one [project.jobs.get(job_id)] followed by [job.trace()] gives: the
    bytes of the whole log so far, the status and the URL of the job. *)
Record snapshot := Snapshot {
  snap_trace : string;
  snap_status : string;
  snap_web_url : string
}.

Section print_log.

(** [decode_lines t] is [t.decode("raw_unicode_escape").splitlines()], [None]
    standing for the [UnicodeDecodeError] of the codec; the codec is not
    part of the script. *)
Variable decode_lines : string → option (list string).

(** [project_job id k] is what the [k]-th fetch of job [id] gives. *)
Variable project_job : Z → nat → snapshot.
Variable job_id : Z.

(** [n] iterations of the loop of [print_log], the first on fetch [k]. *)
Fixpoint print_log_loop (n k printed_lines : nat)
  : list event * outcome unit nat :=
  match n with
  | O => ([], Looping printed_lines)
  | S n' =>
      let job := project_job job_id k in
      match decode_lines (snap_trace job) with
      | None => ([], Raised UnicodeDecodeError)
      | Some lines =>
          let out := PrintLine <$> drop printed_lines lines in
          let printed_lines := length lines in
          if list_in (snap_status job) COMPLETED_STATUSES then
            (out ++ [PrintFinished (snap_web_url job)], Returned tt)
          else
            match print_log_loop n' (S k) printed_lines with
            | (out', o) => (out ++ Wait REFRESH_WAIT_LOG :: out', o)
            end
      end
  end.

Definition print_log (n : nat) := print_log_loop n 0 0.

End print_log.

(** ** The end of the script: from the call of [monitor_pipeline] to the exit *)

(** [sys.exit(ret)]: [None] is exit status 0, an integer is the status. *)
Definition sys_exit (ret : option Z) : Z :=
  match ret with
  | None => 0
  | Some code => code
  end.

(** The truth value of [target_job_id]: neither [None] nor 0. *)
Definition truthy_id (i : option Z) : bool :=
  match i with
  | Some n => negb (n =? 0)
  | None => false
  end.

Section main.

Variable re_match : string → string → bool.
Variable pipeline : nat → list job.
Variable decode_lines : string → option (list string).
Variable project_job : Z → nat → snapshot.
Variable target_job : option string.
Variable dependencies : gset string.
Variables force_manual stress : bool.

(** The script from [monitor_pipeline] on, with at most [n] iterations of
    the monitor and [m] of the log streamer; [Returned c] is the exit of
    the process with status [c]. *)
Definition main (n m : nat) : list event * outcome Z unit :=
  match monitor_pipeline re_match pipeline target_job dependencies
          force_manual stress n with
  | (out, Returned (target_job_id, ret)) =>
      let streamed :=
        match target_job_id with
        | Some i =>
            if truthy_id target_job_id
            then print_log decode_lines project_job i m
            else ([], Returned tt)
        | None => ([], Returned tt)
        end in
      match streamed with
      | (out', Returned _) =>
          (out ++ out' ++ [PrintDuration], Returned (sys_exit ret))
      | (out', Raised e) => (out ++ out', Raised e)
      | (out', Looping _) => (out ++ out', Looping tt)
      end
  | (out, Raised e) => (out, Raised e)
  | (out, Looping _) => (out, Looping tt)
  end.

End main.

(** ** The pipeline URL given on the command line *)

Definition GITLAB_URL : string := "https://gitlab.freedesktop.org".

(** What the URL handling of the entry point can raise. *)
Inductive url_error := AssertionError | IndexError | ValueError.

(** [s[n:]] on a [str]. *)
Fixpoint str_drop (n : nat) (s : string) : string :=
  match n, s with
  | O, _ => s
  | S n', String _ s' => str_drop n' s'
  | S _, EmptyString => EmptyString
  end.

(** [s.split(sep)] for a separator of one character. *)
Fixpoint split_char (sep : ascii) (s : string) : list string :=
  match s with
  | EmptyString => [EmptyString]
  | String c s' =>
      if Ascii.eqb c sep then EmptyString :: split_char sep s'
      else match split_char sep s' with
           | w :: ws => String c w :: ws
           | [] => [String c EmptyString]
           end
  end.

(** [sep.join(l)] *)
Fixpoint join (sep : string) (l : list string) : string :=
  match l with
  | [] => EmptyString
  | [w] => w
  | w :: l' => w +:+ sep +:+ join sep l'
  end.

Section pipeline_url.

(** [int s] is Python's [int(s)], [None] standing for [ValueError]. *)
Variable int : string → option Z.

(** The body of the [if args.pipeline_url:] block of the entry point, up to
    the two remote lookups: the project name and the pipeline id read from
    the URL. *)
Definition parse_pipeline_url (pipeline_url : string)
  : url_error + string * Z :=
  if negb (String.prefix GITLAB_URL pipeline_url) then inl AssertionError else
  let url_path := str_drop (String.length GITLAB_URL) pipeline_url in
  let url_path_components := split_char "/"%char url_path in
  let project_name := join "/" (take 2 (drop 1 url_path_components)) in
  match url_path_components !! 3%nat with
  | None => inl IndexError
  | Some c3 =>
      if negb (String.eqb c3 "-") then inl AssertionError else
      match url_path_components !! 4%nat with
      | None => inl IndexError
      | Some c4 =>
          if negb (String.eqb c4 "pipelines") then inl AssertionError else
          match url_path_components !! 5%nat with
          | None => inl IndexError
          | Some c5 =>
              match int c5 with
              | None => inl ValueError
              | Some pipeline_id => inr (project_name, pipeline_id)
              end
          end
      end
  end.

(** The [if args.pipeline_url:] of the entry point: the block is run on a
    URL that is neither [None] nor empty; [None] stands for the other
    branch, which finds the pipeline from the revision. *)
Definition pipeline_from_url (arg : option string)
  : option (url_error + string * Z) :=
  match arg with
  | Some pipeline_url =>
      if String.eqb pipeline_url "" then None
      else Some (parse_pipeline_url pipeline_url)
  | None => None
  end.

End pipeline_url.

(** * Properties *)

(** ** Statuses and the substring test *)

Ltac status_cases H :=
  repeat (apply elem_of_cons in H as [->|H]); [.. | by apply elem_of_nil in H].

Lemma str_in_statuses (a b : string) :
  a ∈ STATUSES → b ∈ STATUSES → str_in a b = true ↔ a = b.
Proof.
  intros Ha Hb. unfold STATUSES in *.
  status_cases Ha; status_cases Hb; vm_compute; split; congruence.
Qed.

(** ** Running the monad *)

Lemma run_bind {A B} (m : M A) (f : A → M B) s out a s' :
  m s = (out, inr (a, s')) →
  (m ≫= f) s = (out ++ (f a s').1, (f a s').2).
Proof.
  intros H. unfold mbind, M_bind, bind. rewrite H. by destruct (f a s').
Qed.

Ltac run_body :=
  cbv [mbind M_bind bind mret M_ret ret emit modify gets when raise
       print_job_status print_job_status_change status_color
       enable_job retry_job cancel_job pretty_wait];
  simpl.

(** The [Cancel] requests of an output, in order. *)
Definition cancels (out : list event) : list Z :=
  omap (λ e, match e with Cancel i => Some i | _ => None end) out.

(** The history stores of an output, in order. *)
Definition stores (out : list event) : list (history * Z * string) :=
  omap (λ e, match e with Store h i st => Some (h, i, st) | _ => None end) out.

Lemma cancels_app out1 out2 : cancels (out1 ++ out2) = cancels out1 ++ cancels out2.
Proof. apply omap_app. Qed.

Lemma list_in_spec (x : string) (l : list string) :
  list_in x l = true ↔ x ∈ l.
Proof.
  unfold list_in. rewrite existsb_exists, list_elem_of_In. split.
  - intros (y & Hy & ->%String.eqb_eq). done.
  - intros H. exists x. split; [done|]. apply String.eqb_refl.
Qed.

Lemma NoDup_ids_filter (f : job → bool) (l : list job) :
  NoDup (job_id <$> l) → NoDup (job_id <$> List.filter f l).
Proof.
  induction l as [|j l IH]; [done|]. simpl.
  rewrite NoDup_cons. intros [Hj Hl]. destruct (f j); [|by apply IH].
  simpl. apply NoDup_cons. split; [|by apply IH].
  intros (j' & E & Hj')%list_elem_of_fmap. apply Hj.
  apply list_elem_of_fmap. exists j'. split; [done|].
  apply list_elem_of_In. apply list_elem_of_In, filter_In in Hj'. tauto.
Qed.

(** The two status lines of an output, in order. *)
Definition status_lines (out : list event) : list event :=
  List.filter (λ e, match e with
                    | PrintStatus _ _ | PrintStatusChange _ _ => true
                    | _ => false
                    end) out.

Lemma statuses_known_check (l : list job) :
  forallb (λ j, list_in (job_status j) STATUSES) l = true →
  ∀ j, j ∈ l → job_status j ∈ STATUSES.
Proof.
  rewrite forallb_forall. intros H j Hj.
  apply list_in_spec, H. by apply list_elem_of_In.
Qed.

(** ** The termination checks *)

Lemma elem_of_values (d : gmap Z string) (x : string) :
  x ∈ values d ↔ ∃ i, d !! i = Some x.
Proof.
  unfold values. rewrite list_elem_of_fmap. split.
  - intros ([i y] & -> & H). exists i. by apply elem_of_map_to_list.
  - intros [i H]. exists (i, x). split; [done|]. by apply elem_of_map_to_list.
Qed.

(** A boolean check of all the values of a dictionary. *)
Lemma all_values_check (f : string → bool) (d : gmap Z string) :
  forallb f (values d) = true → ∀ i x, d !! i = Some x → f x = true.
Proof.
  rewrite forallb_forall. intros H i x Hi.
  apply H, list_elem_of_In, elem_of_values. eauto.
Qed.

Lemma nonempty_inter (wanted : gset string) (d : gmap Z string) :
  nonempty (wanted ∩ list_to_set (values d)) = true ↔
  ∃ i x, d !! i = Some x ∧ x ∈ wanted.
Proof.
  unfold nonempty. rewrite bool_decide_eq_true. split.
  - intros H. apply set_choose_L in H as [x Hx].
    apply elem_of_intersection in Hx as [Hw Hv].
    apply elem_of_list_to_set, elem_of_values in Hv as [i Hi]. eauto.
  - intros (i & x & Hi & Hw) He.
    assert (x ∈ wanted ∩ list_to_set (values d)) as Hx.
    { apply elem_of_intersection. split; [done|].
      apply elem_of_list_to_set, elem_of_values. eauto. }
    rewrite He in Hx. by apply not_elem_of_empty in Hx.
Qed.

(** A dictionary with one entry is that entry. *)
Lemma size_1_lookup (d : gmap Z string) i x :
  size d = 1%nat → d !! i = Some x → d = {[i := x]}.
Proof.
  intros Hsz Hi.
  rewrite <- (insert_delete_id d i x Hi).
  assert (delete i d = ∅) as ->; [|done].
  apply map_size_empty_inv. rewrite map_size_delete, Hi, Hsz. done.
Qed.

(** The condition of the first [return]. *)
Definition handoff_applies (d : gmap Z string) : Prop :=
  size d = 1%nat ∧ ∃ i, d !! i = Some "running".

(** The condition of the second [return]. *)
Definition failure_applies (d : gmap Z string) : Prop :=
  ∃ i x, d !! i = Some x ∧ (x = "failed" ∨ x = "canceled").

Lemma handoff_test (d : gmap Z string) :
  (size d =? 1)%nat && nonempty ({["running"]} ∩ list_to_set (values d)) = true
  ↔ handoff_applies d.
Proof.
  rewrite andb_true_iff, Nat.eqb_eq, nonempty_inter. unfold handoff_applies.
  split; intros [Hsz H]; (split; [done|]).
  - destruct H as (i & x & Hi & ->%elem_of_singleton). eauto.
  - destruct H as [i Hi]. exists i, "running". split; [done|].
    by apply elem_of_singleton.
Qed.

Lemma failure_test (d : gmap Z string) :
  nonempty ({["failed"; "canceled"]} ∩ list_to_set (values d)) = true
  ↔ failure_applies d.
Proof.
  rewrite nonempty_inter. unfold failure_applies.
  split; intros (i & x & Hi & Hx); exists i, x; (split; [done|]); set_solver.
Qed.

Lemma success_test (d : gmap Z string) :
  bool_decide (list_to_set (values d) ⊆@{gset string} {["success"; "manual"]})
  = true
  ↔ ∀ i x, d !! i = Some x → x = "success" ∨ x = "manual".
Proof.
  rewrite bool_decide_eq_true. split.
  - intros H i x Hi.
    assert (x ∈@{gset string} {["success"; "manual"]}) as Hx; [|set_solver].
    apply H, elem_of_list_to_set, elem_of_values. eauto.
  - intros H x [i Hi]%elem_of_list_to_set%elem_of_values.
    destruct (H i x Hi) as [-> | ->]; set_solver.
Qed.

Lemma evaluate_handoff s i :
  size (target_statuses s) = 1%nat →
  target_statuses s !! i = Some "running" →
  evaluate s = ([PrintSeparator], inr (Some (Some i, None), s)).
Proof.
  intros Hsz Hi. unfold evaluate. run_body.
  assert (handoff_applies (target_statuses s)) as Hh by (split; eauto).
  apply handoff_test in Hh. rewrite Hh.
  rewrite (size_1_lookup _ _ _ Hsz Hi), map_to_list_singleton. done.
Qed.

Lemma evaluate_failure s :
  ¬ handoff_applies (target_statuses s) →
  failure_applies (target_statuses s) →
  evaluate s = ([PrintSeparator], inr (Some (None, Some 1), s)).
Proof.
  intros Hh Hf. unfold evaluate. run_body.
  rewrite <- handoff_test in Hh. apply not_true_is_false in Hh. rewrite Hh.
  apply failure_test in Hf. rewrite Hf. done.
Qed.

Lemma evaluate_success s :
  (∀ i x, target_statuses s !! i = Some x → x = "success" ∨ x = "manual") →
  evaluate s = ([PrintSeparator], inr (Some (None, Some 0), s)).
Proof.
  intros Hs. unfold evaluate. run_body.
  assert ((size (target_statuses s) =? 1)%nat &&
          nonempty ({["running"]} ∩ list_to_set (values (target_statuses s)))
          = false) as ->.
  { apply not_true_is_false. rewrite handoff_test. intros [_ [i Hi]].
    by destruct (Hs i _ Hi). }
  assert (nonempty ({["failed"; "canceled"]} ∩
                    list_to_set (values (target_statuses s))) = false) as ->.
  { apply not_true_is_false. rewrite failure_test.
    intros (i & x & Hi & Hx). destruct (Hs i x Hi), Hx; congruence. }
  apply success_test in Hs. rewrite Hs. done.
Qed.

Section monitor_facts.

Variable re_match : string → string → bool.
Variable pipeline : nat → list job.
Variable target_job : option string.
Variable dependencies : gset string.
Variables force_manual stress : bool.

Local Abbreviation is_target := (matches_target re_match target_job).
Local Abbreviation given := (target_given target_job).
Local Abbreviation body :=
  (job_body re_match target_job dependencies force_manual stress).
Local Abbreviation scan :=
  (dispatch re_match pipeline target_job dependencies force_manual stress).
Local Abbreviation pass :=
  (iteration re_match pipeline target_job dependencies force_manual stress).
Local Abbreviation loop :=
  (monitor_loop re_match pipeline target_job dependencies force_manual stress).

(** The path condition of [to_cancel.append(job)]. *)
Definition marked (j : job) : bool :=
  negb (is_target j) &&
  negb (bool_decide (job_name j ∈ dependencies)) &&
  given &&
  negb (list_in (job_status j) ["canceled"; "success"; "failed"; "skipped"]).

(** A target job that the stress mode counts as a success / as a failure. *)
Definition counted (st : string) (j : job) : bool :=
  is_target j && stress && String.eqb (job_status j) st.

Definition bump (b : bool) : Z := if b then 1 else 0.

Lemma matches_given j : is_target j = true → given = true.
Proof.
  unfold matches_target, target_given.
  destruct target_job; [|done]. by intros [? _]%andb_true_iff.
Qed.

(** One job of the scan, when its status is a known one: no exception, and
    what happens to each local variable. *)
Lemma job_body_spec j s :
  job_status j ∈ STATUSES →
  ∃ out s',
    body j s = (out, inr (tt, s')) ∧
    to_cancel s' = to_cancel s ++ (if marked j then [j] else []) ∧
    stress_succ s' = stress_succ s + bump (counted "success" j) ∧
    stress_fail s' = stress_fail s + bump (counted "failed" j) ∧
    (is_target j = false → target_statuses s' = target_statuses s) ∧
    cancels out = [].
Proof.
  intros Hst. destruct j as [i nm st url], s as [ss ts sc fl tc].
  unfold job_body, marked, counted. simpl in *.
  destruct (is_target _) eqn:Hm.
  - unfold target_body, status_changed; simpl.
    unfold STATUSES in Hst. status_cases Hst.
    all: destruct force_manual, stress; run_body.
    all: destruct (ts !! i) as [old|]; try destruct (str_in _ old); simpl.
    all: (do 2 eexists); (split; [reflexivity|]); simpl.
    all: by rewrite ?Z.add_0_r, ?app_nil_r.
  - unfold other_body, status_changed; simpl.
    unfold STATUSES in Hst. status_cases Hst.
    all: destruct (bool_decide _), given; run_body.
    all: destruct (ss !! i) as [old|]; try destruct (str_in _ old); simpl.
    all: (do 2 eexists); (split; [reflexivity|]); simpl.
    all: by rewrite ?Z.add_0_r, ?app_nil_r.
Qed.

(** The scan of a whole job list. *)
Lemma for_each_body_spec (l : list job) s :
  (∀ j, j ∈ l → job_status j ∈ STATUSES) →
  ∃ out s',
    for_each l body s = (out, inr (tt, s')) ∧
    to_cancel s' = to_cancel s ++ List.filter marked l ∧
    stress_succ s' =
      stress_succ s + Z.of_nat (length (List.filter (counted "success") l)) ∧
    stress_fail s' =
      stress_fail s + Z.of_nat (length (List.filter (counted "failed") l)) ∧
    ((∀ j, j ∈ l → is_target j = false) →
     target_statuses s' = target_statuses s) ∧
    cancels out = [].
Proof.
  revert s. induction l as [|j l IH]; intros s Hst.
  - exists [], s. simpl. rewrite app_nil_r, !Z.add_0_r. done.
  - destruct (job_body_spec j s) as (o1 & s1 & E1 & Hc1 & Hs1 & Hf1 & Ht1 & Hk1).
    { apply Hst. left. }
    destruct (IH s1) as (o2 & s2 & E2 & Hc2 & Hs2 & Hf2 & Ht2 & Hk2).
    { intros j' Hj'. apply Hst. by right. }
    exists (o1 ++ o2), s2. split.
    { simpl. rewrite (run_bind _ _ _ _ _ _ E1). by rewrite E2. }
    rewrite Hc2, Hc1, Hs2, Hs1, Hf2, Hf1, cancels_app, Hk1, Hk2. simpl.
    repeat split.
    + destruct (marked j); simpl; by rewrite <- ?app_assoc.
    + unfold bump. destruct (counted "success" j); simpl length; lia.
    + unfold bump. destruct (counted "failed" j); simpl length; lia.
    + intros Hno. rewrite Ht2, Ht1; [done | |].
      * apply Hno. left.
      * intros j' Hj'. apply Hno. by right.
Qed.

Lemma cancel_job_list (l : list job) s :
  ∃ out, for_each l cancel_job s = (out, inr (tt, s)) ∧
         cancels out = job_id <$> l.
Proof.
  induction l as [|j l (out & E & Hc)]; [by exists []|].
  exists (Cancel (job_id j) :: PrintCancelled (job_name j) :: out).
  split; [|simpl; by rewrite Hc].
  change (for_each (j :: l) cancel_job)
    with (cancel_job j ;; for_each l cancel_job).
  rewrite (run_bind _ _ s [Cancel (job_id j); PrintCancelled (job_name j)]
             tt s eq_refl).
  by rewrite E.
Qed.

Lemma cancel_jobs_spec (l : list job) s :
  ∃ out, cancel_jobs l s = (out, inr (tt, s)) ∧ cancels out = job_id <$> l.
Proof.
  destruct l as [|j l]; [by exists []|].
  destruct (cancel_job_list (j :: l) s) as (out & E & Hc).
  exists (out ++ [PrintNewline]). split.
  - unfold cancel_jobs. rewrite (run_bind _ _ _ _ _ _ E). done.
  - rewrite cancels_app, Hc. simpl. by rewrite app_nil_r.
Qed.

(** The first half of an iteration: the scan, then the cancellations. *)
Lemma dispatch_spec k s :
  (∀ j, j ∈ pipeline k → job_status j ∈ STATUSES) →
  ∃ out s',
    scan k s = (out, inr (tt, s')) ∧
    to_cancel s' = List.filter marked (pipeline k) ∧
    cancels out = (if given then job_id <$> to_cancel s' else []) ∧
    stress_succ s' =
      stress_succ s +
      Z.of_nat (length (List.filter (counted "success") (pipeline k))) ∧
    stress_fail s' =
      stress_fail s +
      Z.of_nat (length (List.filter (counted "failed") (pipeline k))) ∧
    ((∀ j, j ∈ pipeline k → is_target j = false) →
     target_statuses s' = target_statuses s).
Proof.
  intros Hst.
  destruct (for_each_body_spec (pipeline k) (set_to_cancel (λ _, []) s) Hst)
    as (o1 & s1 & E1 & Hc1 & Hs1 & Hf1 & Ht1 & Hk1).
  simpl in Hc1, Hs1, Hf1, Ht1.
  destruct (cancel_jobs_spec (to_cancel s1) s1) as (o2 & E2 & Hk2).
  exists (o1 ++ if given then o2 else []), s1.
  split.
  { unfold dispatch.
    rewrite (run_bind (modify _) _ s [] tt (set_to_cancel (λ _, []) s) eq_refl).
    rewrite (run_bind _ _ _ _ _ _ E1). simpl.
    destruct given; simpl; [|by rewrite app_nil_r].
    rewrite (run_bind (gets _) _ s1 [] (to_cancel s1) s1 eq_refl).
    by rewrite E2. }
  rewrite cancels_app, Hk1. simpl.
  repeat split; try done.
  by destruct given.
Qed.

(** An iteration whose checks return ends the loop with that result. *)
Lemma loop_returns n k s out s' out2 r s2 :
  stress = false →
  scan k s = (out, inr (tt, s')) →
  evaluate s' = (out2, inr (Some r, s2)) →
  loop (S n) k s = (out ++ out2, Returned r).
Proof.
  intros Hstress Hscan Heval. simpl. unfold iteration.
  rewrite (run_bind _ _ _ _ _ _ Hscan), Hstress, Heval. done.
Qed.

Lemma not_given_no_target j : given = false → is_target j = false.
Proof.
  intros H. destruct (is_target j) eqn:E; [|done].
  apply matches_given in E. congruence.
Qed.

End monitor_facts.

(** ** The three [return]s of [monitor_pipeline] *)

Section termination.

Variable re_match : string → string → bool.
Variable pipeline : nat → list job.
Variable target_job : option string.
Variable dependencies : gset string.
Variable force_manual : bool.

Local Abbreviation scan :=
  (dispatch re_match pipeline target_job dependencies force_manual false).
Local Abbreviation loop :=
  (monitor_loop re_match pipeline target_job dependencies force_manual false).

(** C1. Without stress mode, when the scan of an iteration leaves a target
    history with exactly one entry and that entry is "running", the
    checks return the hand-off (that job's id, no exit code), and so does
    [monitor_pipeline] in that very iteration: the failure and success
    checks are not reached. *)
Theorem single_running_target_hands_off n k s out s' i :
  scan k s = (out, inr (tt, s')) →
  size (target_statuses s') = 1%nat →
  target_statuses s' !! i = Some "running" →
  evaluate s' = ([PrintSeparator], inr (Some (Some i, None), s')) ∧
  loop (S n) k s = (out ++ [PrintSeparator], Returned (Some i, None)).
Proof.
  intros Hscan Hsz Hi.
  pose proof (evaluate_handoff s' i Hsz Hi) as He.
  split; [done|]. by eapply loop_returns.
Qed.

(** C2. Without stress mode, when the hand-off rule does not apply and some
    recorded target status is "failed" or "canceled", the checks return
    the failure (no job id, exit code 1), whatever the other recorded
    statuses are, and [monitor_pipeline] returns it in that iteration. *)
Theorem failed_target_returns_failure n k s out s' :
  scan k s = (out, inr (tt, s')) →
  ¬ handoff_applies (target_statuses s') →
  failure_applies (target_statuses s') →
  evaluate s' = ([PrintSeparator], inr (Some (None, Some 1), s')) ∧
  loop (S n) k s = (out ++ [PrintSeparator], Returned (None, Some 1)).
Proof.
  intros Hscan Hh Hf.
  pose proof (evaluate_failure s' Hh Hf) as He.
  split; [done|]. by eapply loop_returns.
Qed.

(** C3. Without stress mode, when every recorded target status is "success"
    or "manual" (which rules out the hand-off and the failure rule), the
    checks return the success (no job id, exit code 0) and
    [monitor_pipeline] returns it in that iteration; in particular when
    every recorded target status is "success". *)
Theorem success_or_manual_returns_success n k s out s' :
  scan k s = (out, inr (tt, s')) →
  (¬ handoff_applies (target_statuses s') →
   ¬ failure_applies (target_statuses s') →
   (∀ i x, target_statuses s' !! i = Some x → x = "success" ∨ x = "manual") →
   evaluate s' = ([PrintSeparator], inr (Some (None, Some 0), s')) ∧
   loop (S n) k s = (out ++ [PrintSeparator], Returned (None, Some 0))) ∧
  ((∀ i x, target_statuses s' !! i = Some x → x = "success") →
   evaluate s' = ([PrintSeparator], inr (Some (None, Some 0), s')) ∧
   loop (S n) k s = (out ++ [PrintSeparator], Returned (None, Some 0))).
Proof.
  intros Hscan.
  assert ((∀ i x, target_statuses s' !! i = Some x →
                  x = "success" ∨ x = "manual") →
          evaluate s' = ([PrintSeparator], inr (Some (None, Some 0), s')) ∧
          loop (S n) k s = (out ++ [PrintSeparator], Returned (None, Some 0)))
    as Hmain.
  { intros Hs. pose proof (evaluate_success s' Hs) as He.
    split; [done|]. by eapply loop_returns. }
  split.
  - intros _ _. apply Hmain.
  - intros Hall. apply Hmain. intros i x Hi. left. by apply (Hall i).
Qed.

(** C10. Without stress mode, an empty target history makes the checks
    return the success (no job id, exit code 0); so when no target pattern
    was given, or no job of the first list matches it, [monitor_pipeline]
    returns the success in its first iteration (the jobs having statuses
    of the enumeration). *)
Theorem empty_history_returns_success n :
  (∀ s, target_statuses s = ∅ →
        evaluate s = ([PrintSeparator], inr (Some (None, Some 0), s))) ∧
  ((∀ j, j ∈ pipeline 0 → job_status j ∈ STATUSES) →
   (target_given target_job = false ∨
    ∀ j, j ∈ pipeline 0 → matches_target re_match target_job j = false) →
   ∃ out,
     monitor_pipeline re_match pipeline target_job dependencies
       force_manual false (S n) = (out, Returned (None, Some 0))).
Proof.
  assert (∀ s, target_statuses s = ∅ →
            evaluate s = ([PrintSeparator], inr (Some (None, Some 0), s)))
    as Hempty.
  { intros s Hs. apply evaluate_success. intros i x. by rewrite Hs. }
  split; [done|]. intros Hst Hno.
  assert (∀ j, j ∈ pipeline 0 → matches_target re_match target_job j = false)
    as Hno'.
  { destruct Hno as [Hg | Hno]; [|done].
    intros j _. by apply not_given_no_target. }
  destruct (dispatch_spec re_match pipeline target_job dependencies
              force_manual false 0 (Locals ∅ ∅ 0 0 []) Hst)
    as (out & s' & Hscan & _ & _ & _ & _ & Hts).
  specialize (Hts Hno'). simpl in Hts.
  exists (out ++ [PrintSeparator]). unfold monitor_pipeline.
  eapply loop_returns; [done | exact Hscan | by apply Hempty].
Qed.

End termination.

(** ** The scan of the jobs *)

Section scan.

Variable re_match : string → string → bool.
Variable pipeline : nat → list job.
Variable target_job : option string.
Variable dependencies : gset string.
Variables force_manual stress : bool.

Local Abbreviation is_target := (matches_target re_match target_job).
Local Abbreviation body :=
  (job_body re_match target_job dependencies force_manual stress).
Local Abbreviation scan :=
  (dispatch re_match pipeline target_job dependencies force_manual stress).

(** C4. In an iteration with a target pattern (the jobs having statuses of
    the enumeration), the scan ends without exception; a polled job is in
    [to_cancel] exactly when it is neither a target nor a dependency and its
    status is none of canceled, success, failed, skipped; the cancel
    requests issued are those of [to_cancel], one per marked job, without
    repetition when the polled ids are distinct; no target job is marked. *)
Theorem cancellation_marks_exactly_the_rest k s :
  target_given target_job = true →
  (∀ j, j ∈ pipeline k → job_status j ∈ STATUSES) →
  ∃ out s',
    scan k s = (out, inr (tt, s')) ∧
    (∀ j, (j ∈ to_cancel s') ↔
          (j ∈ pipeline k ∧
           is_target j = false ∧
           (job_name j ∉ dependencies) ∧
           job_status j ∉ ["canceled"; "success"; "failed"; "skipped"])) ∧
    cancels out = job_id <$> to_cancel s' ∧
    (NoDup (job_id <$> pipeline k) → NoDup (cancels out)) ∧
    (∀ j, j ∈ to_cancel s' → is_target j = false).
Proof.
  intros Hgiven Hst.
  destruct (dispatch_spec re_match pipeline target_job dependencies
              force_manual stress k s Hst)
    as (out & s' & Hscan & Htc & Hk & _).
  rewrite Hgiven in Hk.
  assert (∀ j, (j ∈ to_cancel s') ↔
               (j ∈ pipeline k ∧ is_target j = false ∧
                (job_name j ∉ dependencies) ∧
                job_status j ∉ ["canceled"; "success"; "failed"; "skipped"]))
    as Hiff.
  { intros j. rewrite Htc.
    rewrite (list_elem_of_In (List.filter _ _)), filter_In, <- list_elem_of_In.
    unfold marked. rewrite Hgiven, !andb_true_iff, !negb_true_iff.
    rewrite bool_decide_eq_false.
    rewrite <- (not_true_iff_false (list_in _ _)), list_in_spec.
    tauto. }
  exists out, s'. repeat split; try done.
  - by apply Hiff.
  - by apply Hiff.
  - by apply Hiff.
  - by apply Hiff.
  - by apply Hiff.
  - intros Hnd. rewrite Hk, Htc. by apply NoDup_ids_filter.
  - intros j Hj. by apply Hiff in Hj as (_ & ? & _).
Qed.

(** The history that the scan consults for a job, and its name. *)
Definition history_of (j : job) (s : locals) : gmap Z string :=
  if is_target j then target_statuses s else statuses s.

Definition history_name (j : job) : history :=
  if is_target j then Target else General.

(** C5. On the statuses of the enumeration the substring test is status
    inequality. So, for a job and a stored status of the enumeration, the
    scan reports a change exactly when the id is absent from the history or
    the stored status differs, and then, and only then, stores the new
    status under the id. *)
Theorem tracker_reports_change_iff_status_differs j s :
  job_status j ∈ STATUSES →
  (∀ old, history_of j s !! job_id j = Some old → old ∈ STATUSES) →
  (∀ old, old ∈ STATUSES →
          negb (str_in (job_status j) old) = true ↔ old ≠ job_status j) ∧
  (status_changed (history_of j s) j = true ↔
   history_of j s !! job_id j = None ∨
   ∃ old, history_of j s !! job_id j = Some old ∧ old ≠ job_status j) ∧
  ∃ out s',
    body j s = (out, inr (tt, s')) ∧
    if status_changed (history_of j s) j then
      stores out = [(history_name j, job_id j, job_status j)] ∧
      history_of j s' = <[job_id j := job_status j]> (history_of j s)
    else
      stores out = [] ∧ history_of j s' = history_of j s.
Proof.
  intros Hst Hold.
  assert (∀ old, old ∈ STATUSES →
            negb (str_in (job_status j) old) = true ↔ old ≠ job_status j)
    as Hsub.
  { intros old Ho. rewrite negb_true_iff, <- not_true_iff_false.
    rewrite (str_in_statuses _ _ Hst Ho). split; intros H E; by apply H. }
  split; [done|]. split.
  { unfold status_changed.
    destruct (history_of j s !! job_id j) as [old|] eqn:E.
    - rewrite (Hsub old (Hold old eq_refl)). split.
      + intros Hne. right. by exists old.
      + intros [? | (old' & [= <-] & Hne)]; done.
    - split; [by left | done]. }
  clear Hold Hsub. unfold history_of, history_name, job_body.
  destruct j as [i nm st url], s as [ss ts sc fl tc]. simpl in *.
  destruct (is_target _).
  - unfold target_body. unfold STATUSES in Hst. status_cases Hst.
    all: destruct force_manual, stress; run_body.
    all: destruct (status_changed ts _); simpl.
    all: by (do 2 eexists).
  - unfold other_body. unfold STATUSES in Hst. status_cases Hst.
    all: destruct (bool_decide _), (target_given target_job); run_body.
    all: destruct (status_changed ss _); simpl.
    all: by (do 2 eexists).
Qed.

(** C6, as amended. When the status of a polled job (one of the
    enumeration) equals the one stored for it, the scan of that job raises
    no exception, stores nothing and leaves both histories as they are, and
    prints no "changed" line; it prints the "unchanged" line exactly when
    the job is a target and its status is not "canceled", and no status
    line at all otherwise. *)
Theorem unchanged_status_stores_nothing j s :
  job_status j ∈ STATUSES →
  history_of j s !! job_id j = Some (job_status j) →
  ∃ out s' c,
    body j s = (out, inr (tt, s')) ∧
    stores out = [] ∧
    statuses s' = statuses s ∧
    target_statuses s' = target_statuses s ∧
    assoc (job_status j) STATUS_COLORS = Some c ∧
    status_lines out =
      if is_target j && negb (String.eqb (job_status j) "canceled")
      then [PrintStatus c j] else [].
Proof.
  intros Hst Hsame.
  assert (status_changed (history_of j s) j = false) as Hch.
  { unfold status_changed. rewrite Hsame.
    apply negb_false_iff, str_in_statuses; done. }
  revert Hsame Hch. unfold history_of, job_body.
  destruct j as [i nm st url], s as [ss ts sc fl tc]. simpl in *.
  destruct (is_target _); intros _ Hch.
  - unfold target_body. unfold STATUSES in Hst. status_cases Hst.
    all: destruct force_manual, stress; run_body.
    all: rewrite Hch; simpl.
    all: by (do 3 eexists).
  - unfold other_body. unfold STATUSES in Hst. status_cases Hst.
    all: destruct (bool_decide _), (target_given target_job); run_body.
    all: rewrite Hch; simpl.
    all: by (do 3 eexists).
Qed.

End scan.

(** ** Stress mode *)

Section stress_mode.

Variable re_match : string → string → bool.
Variable pipeline : nat → list job.
Variable target_job : option string.
Variable dependencies : gset string.
Variable force_manual : bool.

Local Abbreviation is_target := (matches_target re_match target_job).
Local Abbreviation scan :=
  (dispatch re_match pipeline target_job dependencies force_manual true).
Local Abbreviation pass :=
  (iteration re_match pipeline target_job dependencies force_manual true).
Local Abbreviation loop :=
  (monitor_loop re_match pipeline target_job dependencies force_manual true).

(** The target jobs of a list that have the given status. *)
Definition targets_with (st : string) (l : list job) : list job :=
  List.filter (λ j, is_target j && String.eqb (job_status j) st) l.

Lemma stress_pass k s :
  (∀ j, j ∈ pipeline k → job_status j ∈ STATUSES) →
  ∃ out s',
    scan k s = (out, inr (tt, s')) ∧
    pass k s =
      (out ++ [PrintTally (stress_succ s') (stress_fail s');
               Wait REFRESH_WAIT_JOBS],
       inr (None, s')) ∧
    stress_succ s' =
      stress_succ s + Z.of_nat (length (targets_with "success" (pipeline k))) ∧
    stress_fail s' =
      stress_fail s + Z.of_nat (length (targets_with "failed" (pipeline k))).
Proof.
  intros Hst.
  destruct (dispatch_spec re_match pipeline target_job dependencies
              force_manual true k s Hst)
    as (out & s' & Hscan & _ & _ & Hsucc & Hfail & _).
  exists out, s'. split; [done|]. split.
  { unfold iteration. by rewrite (run_bind _ _ _ _ _ _ Hscan). }
  unfold targets_with. split.
  - rewrite Hsucc. do 3 f_equal. apply filter_ext. intros j.
    unfold counted. by rewrite andb_true_r.
  - rewrite Hfail. do 3 f_equal. apply filter_ext. intros j.
    unfold counted. by rewrite andb_true_r.
Qed.

End stress_mode.

(** ** The log streamer *)





Section log_streamer.

Variable decode_lines : string → option (list string).
Variable project_job : Z → nat → snapshot.
Variable job_id : Z.

Local Abbreviation fetch := (project_job job_id).
Local Abbreviation log_loop :=
  (print_log_loop decode_lines project_job job_id).












End log_streamer.

(** ** The exit status *)

Section exit_status.

Variable re_match : string → string → bool.
Variable pipeline : nat → list job.
Variable decode_lines : string → option (list string).
Variable project_job : Z → nat → snapshot.
Variable target_job : option string.
Variable dependencies : gset string.
Variables force_manual stress : bool.

(** C8. When [monitor_pipeline] returns a hand-off (a job id, no exit
    code) and the log streamer, started on that job, returns, the process
    exits with status 0, whatever the fetches of the job showed. *)
Theorem handoff_exits_with_zero n m out i out' :
  monitor_pipeline re_match pipeline target_job dependencies
    force_manual stress n = (out, Returned (Some i, None)) →
  truthy_id (Some i) = true →
  print_log decode_lines project_job i m = (out', Returned tt) →
  main re_match pipeline decode_lines project_job target_job dependencies
    force_manual stress n m
  = (out ++ out' ++ [PrintDuration], Returned 0).
Proof.
  intros Hmon Hid Hlog. unfold main. by rewrite Hmon, Hid, Hlog.
Qed.

End exit_status.

(** * Further properties *)

(** ** The pipeline URL *)

(** No ["/"] in the string. *)
Fixpoint slash_free (s : string) : bool :=
  match s with
  | EmptyString => true
  | String c s' => negb (Ascii.eqb c "/"%char) && slash_free s'
  end.

Lemma prefix_app (p s : string) : String.prefix p (p +:+ s) = true.
Proof.
  induction p as [|c p IH]; simpl; [by destruct s|].
  destruct (Ascii.ascii_dec c c); [done|congruence].
Qed.

Lemma str_drop_app (p s : string) : str_drop (String.length p) (p +:+ s) = s.
Proof. induction p as [|c p IH]; [done|]. simpl. exact IH. Qed.

Lemma prefix_split (p u : string) :
  String.prefix p u = true → u = p +:+ str_drop (String.length p) u.
Proof.
  revert u. induction p as [|c p IH]; intros u; [done|].
  destruct u as [|d u]; simpl; [done|].
  destruct (Ascii.ascii_dec c d) as [->|]; [|done].
  intros H.
  change (String d u = String d (p +:+ str_drop (String.length p) u)).
  f_equal. by apply IH.
Qed.

Lemma split_char_nonempty (s : string) : split_char "/"%char s ≠ [].
Proof.
  destruct s as [|c s]; simpl; [done|].
  destruct (Ascii.eqb c "/"%char); [done|]. by destruct (split_char "/"%char s).
Qed.

Lemma split_slash_free (w : string) :
  slash_free w = true → split_char "/"%char w = [w].
Proof.
  induction w as [|c w IH]; [done|]. simpl.
  intros [Hc Hw]%andb_true_iff. apply negb_true_iff in Hc. rewrite Hc.
  by rewrite (IH Hw).
Qed.

Lemma split_app_slash (w rest : string) :
  slash_free w = true →
  split_char "/"%char (w +:+ "/" +:+ rest) = w :: split_char "/"%char rest.
Proof.
  induction w as [|c w IH]; [done|]. simpl.
  intros [Hc Hw]%andb_true_iff. apply negb_true_iff in Hc. rewrite Hc.
  by rewrite (IH Hw).
Qed.

(** Splitting what [join] made gives the components back. *)
Lemma split_join (l : list string) :
  l ≠ [] → forallb slash_free l = true → split_char "/"%char (join "/" l) = l.
Proof.
  induction l as [|w l IH]; [done|]. intros _ [Hw Hl]%andb_true_iff.
  destruct l as [|w' l]; [by apply split_slash_free|].
  change (join "/" (w :: w' :: l)) with (w +:+ "/" +:+ join "/" (w' :: l)).
  rewrite split_app_slash by done. by rewrite IH.
Qed.

(** Joining what [split] made gives the string back, and no component
    holds a ["/"]. *)
Lemma join_split (s : string) :
  join "/" (split_char "/"%char s) = s ∧
  forallb slash_free (split_char "/"%char s) = true.
Proof.
  induction s as [|c s [IHj IHf]]; [done|]. simpl.
  pose proof (split_char_nonempty s) as Hne.
  destruct (Ascii.eqb c "/"%char) eqn:Hc.
  - apply Ascii.eqb_eq in Hc as ->. split; [|done].
    destruct (split_char "/"%char s) as [|w ws]; [done|].
    change (join "/" ("" :: w :: ws)) with ("" +:+ "/" +:+ join "/" (w :: ws)).
    by rewrite IHj.
  - destruct (split_char "/"%char s) as [|w ws]; [done|]. split.
    + rewrite <- IHj. by destruct ws.
    + simpl in *. by rewrite Hc.
Qed.

Section pipeline_url_facts.

Variable int : string → option Z.

(** The components of an accepted URL path: anything before the first
    ["/"], the namespace, the project, ["-"], ["pipelines"], the id and
    whatever follows. *)
Definition pipeline_path (c0 ns proj idstr : string) (rest : list string)
  : list string :=
  c0 :: ns :: proj :: "-" :: "pipelines" :: idstr :: rest.

(** X1. A URL made of [GITLAB_URL] and a path of the expected shape, whose
    components hold no ["/"], gives the project name [ns/proj] and the
    pipeline id that [int] reads, or the [ValueError] of [int]; what stands
    between the base and the first ["/"] and what follows the id are not
    looked at. *)
Theorem pipeline_url_accepted c0 ns proj idstr rest :
  forallb slash_free (c0 :: ns :: proj :: idstr :: rest) = true →
  parse_pipeline_url int
    (GITLAB_URL +:+ join "/" (pipeline_path c0 ns proj idstr rest))
  = match int idstr with
    | Some n => inr (ns +:+ "/" +:+ proj, n)
    | None => inl ValueError
    end.
Proof.
  intros Hfree. unfold parse_pipeline_url.
  rewrite prefix_app, str_drop_app. simpl negb. cbv iota.
  rewrite split_join; [|done|].
  - simpl. by destruct (int idstr).
  - simpl in *. repeat (apply andb_true_iff in Hfree as [? Hfree]).
    repeat (apply andb_true_iff; split); done.
Qed.

(** X2. Conversely, a URL from which a project name and a pipeline id are read
    is [GITLAB_URL] followed by a path of that shape. *)
Theorem pipeline_url_accepted_only url name n :
  parse_pipeline_url int url = inr (name, n) →
  ∃ c0 ns proj idstr rest,
    url = GITLAB_URL +:+ join "/" (pipeline_path c0 ns proj idstr rest) ∧
    forallb slash_free (c0 :: ns :: proj :: idstr :: rest) = true ∧
    name = ns +:+ "/" +:+ proj ∧
    int idstr = Some n.
Proof.
  unfold parse_pipeline_url.
  destruct (String.prefix GITLAB_URL url) eqn:Hpre; [|done]. simpl negb. cbv iota.
  apply prefix_split in Hpre.
  destruct (join_split (str_drop (String.length GITLAB_URL) url)) as [Hjoin Hfree].
  destruct (split_char "/" (str_drop (String.length GITLAB_URL) url))
    as [|c0 [|ns [|proj [|c3 [|c4 [|idstr rest]]]]]]; try done.
  all: simpl lookup; cbv iota.
  all: destruct (String.eqb c3 "-") eqn:E3; try done.
  all: simpl negb; cbv iota.
  all: try destruct (String.eqb c4 "pipelines") eqn:E4; try done.
  simpl negb. cbv iota.
  destruct (int idstr) as [m|] eqn:Hint; [|done].
  intros [= <- <-].
  apply String.eqb_eq in E3 as ->. apply String.eqb_eq in E4 as ->.
  exists c0, ns, proj, idstr, rest. unfold pipeline_path.
  rewrite Hjoin. split; [done|]. split; [|done].
  simpl in *. repeat (apply andb_true_iff in Hfree as [? Hfree]).
  repeat (apply andb_true_iff; split); done.
Qed.

(** X3. What is rejected, and how. Without a URL, or with the empty one, the
    block is not run and nothing is raised. A URL that is not empty and
    does not start with [GITLAB_URL] fails the first assertion; a path of at
    most three components (such as the URL of a project) raises
    [IndexError]; a path whose fourth component is not ["-"] (such as one with
    a subgroup) fails the second assertion. *)
Theorem pipeline_url_rejected :
  (pipeline_from_url int None = None ∧ pipeline_from_url int (Some "") = None) ∧
  (∀ url, url ≠ "" → String.prefix GITLAB_URL url = false →
          pipeline_from_url int (Some url) = Some (inl AssertionError)) ∧
  (∀ l, l ≠ [] → forallb slash_free l = true → (length l ≤ 3)%nat →
        pipeline_from_url int (Some (GITLAB_URL +:+ join "/" l))
        = Some (inl IndexError)) ∧
  (∀ c0 c1 c2 c3 rest,
      forallb slash_free (c0 :: c1 :: c2 :: c3 :: rest) = true →
      c3 ≠ "-" →
      pipeline_from_url int
        (Some (GITLAB_URL +:+ join "/" (c0 :: c1 :: c2 :: c3 :: rest)))
      = Some (inl AssertionError)).
Proof.
  split; [done|]. split; [|split].
  - intros url Hne Hpre. unfold pipeline_from_url, parse_pipeline_url.
    apply String.eqb_neq in Hne. by rewrite Hne, Hpre.
  - intros l Hne Hfree Hlen.
    change (pipeline_from_url int (Some (GITLAB_URL +:+ join "/" l)))
      with (Some (parse_pipeline_url int (GITLAB_URL +:+ join "/" l))).
    f_equal. unfold parse_pipeline_url.
    rewrite prefix_app, str_drop_app, split_join by done.
    simpl negb. cbv iota.
    destruct l as [|? [|? [|? [|? ?]]]]; simpl in *; try done; lia.
  - intros c0 c1 c2 c3 rest Hfree Hc3.
    change (pipeline_from_url int
              (Some (GITLAB_URL +:+ join "/" (c0 :: c1 :: c2 :: c3 :: rest))))
      with (Some (parse_pipeline_url int
                    (GITLAB_URL +:+ join "/" (c0 :: c1 :: c2 :: c3 :: rest)))).
    f_equal. unfold parse_pipeline_url.
    rewrite prefix_app, str_drop_app, split_join by done.
    simpl negb. cbv iota. simpl lookup. cbv iota.
    apply String.eqb_neq in Hc3. by rewrite Hc3.
Qed.

End pipeline_url_facts.

(** ** The status lines *)

Lemma assoc_Some_key {A} (key : string) (d : list (string * A)) v :
  assoc key d = Some v → key ∈ d.*1.
Proof.
  induction d as [|[k w] d IH]; [done|]. simpl.
  destruct (String.eqb key k) eqn:E.
  - apply String.eqb_eq in E as ->. intros _. apply elem_of_cons. by left.
  - intros H. apply elem_of_cons. right. by apply IH.
Qed.

Lemma assoc_None_key {A} (key : string) (d : list (string * A)) :
  assoc key d = None → key ∉ d.*1.
Proof.
  induction d as [|[k w] d IH]; [intros _; apply not_elem_of_nil|]. simpl.
  destruct (String.eqb key k) eqn:E; [done|].
  apply String.eqb_neq in E. intros H [?|?]%elem_of_cons; [done|].
  by apply IH.
Qed.

(** The statuses with a colour are those of the enumeration. *)
Lemma colour_iff_status (st : string) :
  is_Some (assoc st STATUS_COLORS) ↔ st ∈ STATUSES.
Proof.
  change STATUSES with (STATUS_COLORS.*1). split.
  - intros [c Hc]. by eapply assoc_Some_key.
  - intros Hin. destruct (assoc st STATUS_COLORS) eqn:E; [by eexists|].
    by apply assoc_None_key in E.
Qed.

(** X4. Both printers are silent on "canceled", print one line in the colour of
    the table on the other statuses of [STATUS_COLORS], and raise [KeyError]
    on every status that is not a key of the table; they never change a
    local variable. *)
Theorem status_line_or_key_error j s :
  (job_status j = "canceled" →
   print_job_status j s = ([], inr (tt, s)) ∧
   print_job_status_change j s = ([], inr (tt, s))) ∧
  (job_status j ≠ "canceled" → job_status j ∈ STATUSES →
   ∃ c, assoc (job_status j) STATUS_COLORS = Some c ∧
        print_job_status j s = ([PrintStatus c j], inr (tt, s)) ∧
        print_job_status_change j s = ([PrintStatusChange c j], inr (tt, s))) ∧
  (job_status j ∉ STATUSES →
   print_job_status j s = ([], inl (KeyError (job_status j))) ∧
   print_job_status_change j s = ([], inl (KeyError (job_status j)))).
Proof.
  unfold print_job_status, print_job_status_change, status_color.
  split; [|split].
  - intros ->. done.
  - intros Hne [c Hc]%colour_iff_status. exists c. split; [done|].
    apply String.eqb_neq in Hne. rewrite Hne.
    unfold mbind, M_bind, bind. rewrite Hc. done.
  - intros Hunk.
    assert (job_status j ≠ "canceled") as Hne.
    { intros E. apply Hunk. rewrite E. apply list_in_spec. reflexivity. }
    apply String.eqb_neq in Hne. rewrite Hne.
    destruct (assoc (job_status j) STATUS_COLORS) eqn:Hc.
    + exfalso. apply Hunk, colour_iff_status. by eexists.
    + done.
Qed.

(** ** The termination checks, completely *)

Lemma evaluate_cases s :
  ∃ out r,
    evaluate s = (out, inr (r, s)) ∧
    match r with
    | Some (Some i, None) =>
        out = [PrintSeparator] ∧ target_statuses s = {[i := "running"]}
    | Some (None, Some code) =>
        out = [PrintSeparator] ∧
        ¬ handoff_applies (target_statuses s) ∧
        ((code = 1 ∧ failure_applies (target_statuses s)) ∨
         (code = 0 ∧ ¬ failure_applies (target_statuses s) ∧
          ∀ i x, target_statuses s !! i = Some x →
                 x = "success" ∨ x = "manual"))
    | Some _ => False
    | None =>
        out = [PrintSeparator; Wait REFRESH_WAIT_JOBS] ∧
        ¬ handoff_applies (target_statuses s) ∧
        ¬ failure_applies (target_statuses s) ∧
        ¬ ∀ i x, target_statuses s !! i = Some x →
                 x = "success" ∨ x = "manual"
    end.
Proof.
  pose proof (handoff_test (target_statuses s)) as Hh.
  pose proof (failure_test (target_statuses s)) as Hf.
  pose proof (success_test (target_statuses s)) as Hs.
  unfold evaluate. run_body.
  lazymatch type of Hh with (?b = true ↔ _) => destruct b end.
  { destruct (proj1 Hh eq_refl) as [Hsz [i Hi]].
    rewrite (size_1_lookup _ _ _ Hsz Hi), map_to_list_singleton.
    eexists _, _. split; [done|]. done. }
  assert (¬ handoff_applies (target_statuses s)) as Hnh.
  { intros H. by apply Hh in H. }
  lazymatch type of Hf with (?b = true ↔ _) => destruct b end.
  { eexists _, _. split; [done|]. simpl.
    split; [done|]. split; [done|]. left. split; [done|]. by apply Hf. }
  assert (¬ failure_applies (target_statuses s)) as Hnf.
  { intros H. by apply Hf in H. }
  lazymatch type of Hs with (?b = true ↔ _) => destruct b end.
  { eexists _, _. split; [done|]. simpl.
    split; [done|]. split; [done|]. right. split; [done|]. split; [done|].
    by apply Hs. }
  eexists _, _. split; [done|]. simpl.
  split; [done|]. split; [done|]. split; [done|].
  intros H. by apply Hs in H.
Qed.

(** X5. The checks never raise and leave the local variables as they are; what
    they return says exactly which case the target history is in: the
    hand-off of [i] when the history is the single entry [i], running; exit
    code 1 when the hand-off does not apply and some entry is failed or
    canceled; exit code 0 when every entry is success or manual; and the
    order to go on, after the wait, in the remaining case. *)
Theorem evaluate_decides s :
  ∃ out r,
    evaluate s = (out, inr (r, s)) ∧
    match r with
    | Some (Some i, None) =>
        out = [PrintSeparator] ∧ target_statuses s = {[i := "running"]}
    | Some (None, Some code) =>
        out = [PrintSeparator] ∧
        ¬ handoff_applies (target_statuses s) ∧
        ((code = 1 ∧ failure_applies (target_statuses s)) ∨
         (code = 0 ∧ ¬ failure_applies (target_statuses s) ∧
          ∀ i x, target_statuses s !! i = Some x →
                 x = "success" ∨ x = "manual"))
    | Some _ => False
    | None =>
        out = [PrintSeparator; Wait REFRESH_WAIT_JOBS] ∧
        ¬ handoff_applies (target_statuses s) ∧
        ¬ failure_applies (target_statuses s) ∧
        ¬ ∀ i x, target_statuses s !! i = Some x →
                 x = "success" ∨ x = "manual"
    end.
Proof. exact (evaluate_cases s). Qed.


Section provenance.

Variable re_match : string → string → bool.
Variable pipeline : nat → list job.
Variable target_job : option string.
Variable dependencies : gset string.
Variables force_manual stress : bool.

Local Abbreviation is_target := (matches_target re_match target_job).
Local Abbreviation body :=
  (job_body re_match target_job dependencies force_manual stress).

Definition hist (h : history) (s : locals) : gmap Z string :=
  match h with Target => target_statuses s | General => statuses s end.

Definition scan_event (j : job) (e : event) : Prop :=
  match e with
  | PrintStatus c j' | PrintStatusChange c j' =>
      j' = j ∧ assoc (job_status j) STATUS_COLORS = Some c
  | Store h i x =>
      h = history_name re_match target_job j ∧ i = job_id j ∧
      x = job_status j ∧ x ∈ STATUSES
  | Play i =>
      i = job_id j ∧ job_status j = "manual" ∧
      if is_target j then force_manual = true
      else job_name j ∈ dependencies
  | Retry i =>
      i = job_id j ∧ stress = true ∧ is_target j = true ∧
      (job_status j = "success" ∨ job_status j = "failed")
  | PrintEnabled _ nm => nm = job_name j
  | _ => False
  end.

Lemma job_body_run j s out r :
  body j s = (out, r) →
  Forall (scan_event j) out ∧
  match r with
  | inl e => e = KeyError (job_status j) ∧ job_status j ∉ STATUSES
  | inr (_, s') =>
      to_cancel s' =
        to_cancel s ++
        (if marked re_match target_job dependencies j then [j] else []) ∧
      (∀ h i x, hist h s' !! i = Some x →
                hist h s !! i = Some x ∨
                (h = history_name re_match target_job j ∧ i = job_id j ∧
                 x = job_status j ∧ x ∈ STATUSES)) ∧
      (∀ h i, (h, i) ≠ (history_name re_match target_job j, job_id j) →
              hist h s' !! i = hist h s !! i)
  end.
Proof.
  destruct j as [i nm st url], s as [ss ts sc fl tc].
  unfold scan_event, history_name, job_body, target_body, other_body, marked.
  cbv [mbind M_bind bind mret M_ret ret emit modify gets when raise
       print_job_status print_job_status_change status_color
       enable_job retry_job job_id job_name job_status].
  intros H. repeat case_match; simplify_eq.
  all: try match goal with
       | H : assoc ?x STATUS_COLORS = Some _ |- _ =>
           assert (x ∈ STATUSES) by (apply colour_iff_status; by eexists)
       | H : String.eqb ?x "canceled" = true |- _ =>
           assert (x ∈ STATUSES)
             by (apply String.eqb_eq in H; rewrite H; by apply list_in_spec)
       end.
  all: split.
  (* the events *)
  all: try (lazymatch goal with |- Forall _ _ => idtac end;
    repeat match goal with
       | H : _ && _ = true |- _ => apply andb_true_iff in H as [? ?]
       | H : String.eqb _ _ = true |- _ => apply String.eqb_eq in H
       | H : bool_decide _ = true |- _ => apply bool_decide_eq_true in H
       | H : list_in _ _ = true |- _ => apply list_in_spec in H
       end;
    simpl app; repeat (apply Forall_cons; split); try apply Forall_nil;
    repeat split; try done; try (by left); try (by right);
    try (repeat match goal with
                | H : _ ∈ _ :: _ |- _ => apply elem_of_cons in H as [H | H]
                | H : _ ∈ [] |- _ => by apply elem_of_nil in H
                end; by auto)).
  all: try (lazymatch goal with |- _ = KeyError _ ∧ _ => idtac end;
    split; [done|];
    match goal with
    | H : assoc _ STATUS_COLORS = None |- _ =>
        apply eq_None_not_Some in H; by rewrite colour_iff_status in H
    end).
  all: try (lazymatch goal with |- to_cancel _ = _ ∧ _ => idtac end;
    simpl;
    repeat match goal with
       | H : ?b = _ |- context [?b] => rewrite H
       end; simpl;
    split; [by rewrite ?app_nil_r|];
    split;
    [intros [] k x; simpl; intros Hl;
     first [by left
           |apply lookup_insert_Some in Hl as [[<- <-] | [_ Hl]];
            [by right | by left]]
    |intros [] k Hne; simpl;
     first [done | rewrite lookup_insert_ne; congruence]]).
  all: cbn [negb andb] in *; congruence.
Qed.


(** A known status, compared with a stored status of the enumeration, is
    stored after the scan of the job. *)
Lemma job_body_tracks j s out s' :
  job_status j ∈ STATUSES →
  (∀ old, hist (history_name re_match target_job j) s !! job_id j = Some old →
          old ∈ STATUSES) →
  body j s = (out, inr (tt, s')) →
  hist (history_name re_match target_job j) s' !! job_id j
  = Some (job_status j).
Proof.
  intros Hst Hold Hrun.
  assert (status_changed (hist (history_name re_match target_job j) s) j = false →
          hist (history_name re_match target_job j) s !! job_id j
          = Some (job_status j)) as Hsame.
  { unfold status_changed.
    destruct (hist _ s !! job_id j) as [old|] eqn:E; [|done].
    intros Hin%negb_false_iff. f_equal. symmetry.
    by apply (str_in_statuses _ _ Hst (Hold old eq_refl)). }
  revert Hold Hsame Hrun. unfold history_name, job_body.
  destruct j as [i nm st url], s as [ss ts sc fl tc]. simpl in *.
  destruct (is_target _); simpl; intros _.
  - unfold target_body. unfold STATUSES in Hst. status_cases Hst.
    all: destruct force_manual, stress; run_body.
    all: destruct (status_changed ts _); simpl.
    all: intros Hsame [= <- <-]; simpl.
    all: first [by apply lookup_insert_eq | by apply Hsame].
  - unfold other_body. unfold STATUSES in Hst. status_cases Hst.
    all: destruct (bool_decide _), (target_given target_job); run_body.
    all: destruct (status_changed ss _); simpl.
    all: intros Hsame [= <- <-]; simpl.
    all: first [by apply lookup_insert_eq | by apply Hsame].
Qed.


(** *** What a run requests and stores *)

(** The job was in one of the first [N] polled lists. *)
Definition polled_upto (N : nat) (j : job) : Prop :=
  ∃ k, (k < N)%nat ∧ j ∈ pipeline k.

(** What a request or a store of the first [N] iterations must be. *)
Definition run_event (N : nat) (e : event) : Prop :=
  match e with
  | Cancel i =>
      ∃ j, polled_upto N j ∧ job_id j = i ∧
           marked re_match target_job dependencies j = true
  | Play _ | Retry _ | Store _ _ _ => ∃ j, polled_upto N j ∧ scan_event j e
  | _ => True
  end.

(** What the local variables hold during the first [N] iterations. *)
Definition run_inv (N : nat) (s : locals) : Prop :=
  (∀ j, j ∈ to_cancel s →
        polled_upto N j ∧ marked re_match target_job dependencies j = true) ∧
  (∀ h i x, hist h s !! i = Some x →
            x ∈ STATUSES ∧
            ∃ j, polled_upto N j ∧ history_name re_match target_job j = h ∧
                 job_id j = i ∧ job_status j = x).

Lemma polled_upto_mono N N' j :
  (N ≤ N')%nat → polled_upto N j → polled_upto N' j.
Proof. intros Hle (k & Hk & Hj). exists k. split; [lia | done]. Qed.

Lemma run_event_mono N N' e :
  (N ≤ N')%nat → run_event N e → run_event N' e.
Proof.
  intros Hle. destruct e; simpl; try done.
  all: intros (j & Hj & H); exists j; split; [by eapply polled_upto_mono | done].
Qed.

Lemma run_inv_mono N N' s : (N ≤ N')%nat → run_inv N s → run_inv N' s.
Proof.
  intros Hle [Hc Hh]. split.
  - intros j Hj. destruct (Hc j Hj) as [Hp Hm].
    split; [by eapply polled_upto_mono | done].
  - intros h i x Hx. destruct (Hh h i x Hx) as (Hst & j & Hp & Hj).
    split; [done|]. exists j. split; [by eapply polled_upto_mono | done].
Qed.

Lemma run_bind_inv {A B} (m : M A) (f : A → M B) s out r :
  (m ≫= f) s = (out, r) →
  (∃ e, m s = (out, inl e) ∧ r = inl e) ∨
  (∃ o1 a s1 o2,
      m s = (o1, inr (a, s1)) ∧ f a s1 = (o2, r) ∧ out = o1 ++ o2).
Proof.
  unfold mbind, M_bind, bind.
  destruct (m s) as [o1 [e | [a s1]]].
  - intros [= <- <-]. left. by exists e.
  - destruct (f a s1) as [o2 r2] eqn:E. intros [= <- <-].
    right. by exists o1, a, s1, o2.
Qed.

Lemma job_body_inv N j s out r :
  polled_upto N j → run_inv N s → body j s = (out, r) →
  Forall (run_event N) out ∧
  match r with
  | inl e => e = KeyError (job_status j) ∧ job_status j ∉ STATUSES
  | inr (_, s') => run_inv N s'
  end.
Proof.
  intros Hp [Hc Hh] Hrun.
  destruct (job_body_run j s out r Hrun) as [Hev Hres]. split.
  - eapply Forall_impl; [exact Hev|]. intros e He.
    destruct e; simpl in *; try done; by exists j.
  - destruct r as [e | [[] s']]; [done|].
    destruct Hres as (Htc & Hent & _). split.
    + intros j'. rewrite Htc. intros [Hj' | Hj']%elem_of_app; [by apply Hc|].
      destruct (marked _ _ _ j) eqn:Hm; [|by apply elem_of_nil in Hj'].
      apply list_elem_of_singleton in Hj' as ->. done.
    + intros h i x Hx. destruct (Hent h i x Hx) as [Hold | (-> & -> & -> & Hst)].
      * by apply Hh.
      * split; [done|]. by exists j.
Qed.

Lemma for_each_body_inv N l s out r :
  (∀ j, j ∈ l → polled_upto N j) → run_inv N s →
  for_each l body s = (out, r) →
  Forall (run_event N) out ∧
  match r with
  | inl e => ∃ j, j ∈ l ∧ e = KeyError (job_status j) ∧ job_status j ∉ STATUSES
  | inr (_, s') => run_inv N s'
  end.
Proof.
  revert s out. induction l as [|j l IH]; intros s out Hp Hinv.
  - intros [= <- <-]. split; [by apply Forall_nil | done].
  - change (for_each (j :: l) body) with (body j ;; for_each l body).
    intros [(e & Hj & ->) | (o1 & [] & s1 & o2 & Hj & Hl & ->)]%run_bind_inv.
    + destruct (job_body_inv N j s out (inl e)) as [Hev [-> Hunk]];
        [apply Hp; left | done | done |].
      split; [done|]. exists j. split; [left | done].
    + destruct (job_body_inv N j s o1 (inr (tt, s1))) as [Hev Hinv1];
        [apply Hp; left | done | done |].
      destruct (IH s1 o2) as [Hev2 Hres];
        [intros j' Hj'; apply Hp; by right | done | done |].
      split; [by apply Forall_app|].
      destruct r as [e | [[] s']]; [|done].
      destruct Hres as (j' & Hj' & He). exists j'. split; [by right | done].
Qed.

Lemma cancel_jobs_run N (l : list job) s :
  (∀ j, j ∈ l →
        polled_upto N j ∧ marked re_match target_job dependencies j = true) →
  ∃ out, cancel_jobs l s = (out, inr (tt, s)) ∧ Forall (run_event N) out.
Proof.
  intros Hl.
  assert (∃ out, for_each l cancel_job s = (out, inr (tt, s)) ∧
                 Forall (run_event N) out) as (out & E & Hev).
  { induction l as [|j l IH]; [exists []; split; [done | by apply Forall_nil]|].
    destruct IH as (out & E & Hev); [intros j' Hj'; apply Hl; by right|].
    exists (Cancel (job_id j) :: PrintCancelled (job_name j) :: out). split.
    - change (for_each (j :: l) cancel_job)
        with (cancel_job j ;; for_each l cancel_job).
      rewrite (run_bind _ _ s [Cancel (job_id j); PrintCancelled (job_name j)]
                 tt s eq_refl).
      by rewrite E.
    - apply Forall_cons. split.
      + destruct (Hl j) as [Hp Hm]; [left|]. by exists j.
      + by constructor. }
  destruct l as [|j l]; [exists []; split; [done | by apply Forall_nil]|].
  exists (out ++ [PrintNewline]). split.
  - unfold cancel_jobs. by rewrite (run_bind _ _ _ _ _ _ E).
  - apply Forall_app. split; [done|]. by repeat constructor.
Qed.

Local Abbreviation scan :=
  (dispatch re_match pipeline target_job dependencies force_manual stress).
Local Abbreviation pass :=
  (iteration re_match pipeline target_job dependencies force_manual stress).
Local Abbreviation loop :=
  (monitor_loop re_match pipeline target_job dependencies force_manual stress).

Lemma dispatch_inv k s out r :
  run_inv k s → scan k s = (out, r) →
  Forall (run_event (S k)) out ∧
  match r with
  | inl e =>
      ∃ j, j ∈ pipeline k ∧ e = KeyError (job_status j) ∧
           job_status j ∉ STATUSES
  | inr (_, s') => run_inv (S k) s'
  end.
Proof.
  intros Hinv Hrun. unfold dispatch in Hrun.
  apply run_bind_inv in Hrun
    as [(e & [=] & _) | (o1 & [] & s0 & o2 & [= <- <-] & Hrun & ->)].
  assert (run_inv (S k) (set_to_cancel (λ _, []) s)) as Hinv0.
  { apply (run_inv_mono k); [lia|]. destruct Hinv as [_ Hh].
    split; [|done]. simpl. by intros j Hj%elem_of_nil. }
  assert (∀ j, j ∈ pipeline k → polled_upto (S k) j) as Hp.
  { intros j Hj. exists k. split; [lia | done]. }
  apply run_bind_inv in Hrun
    as [(e & Hscan & ->) | (o1 & [] & s1 & o3 & Hscan & Hrun & ->)].
  - by destruct (for_each_body_inv (S k) _ _ _ _ Hp Hinv0 Hscan).
  - destruct (for_each_body_inv (S k) _ _ _ _ Hp Hinv0 Hscan) as [Hev Hinv1].
    destruct Hinv1 as [Hc Hh]. simpl.
    destruct (target_given target_job); simpl in Hrun.
    + apply run_bind_inv in Hrun
        as [(e & [=] & _) | (o4 & l & s2 & o5 & [= <- <- <-] & Hrun & ->)].
      destruct (cancel_jobs_run (S k) (to_cancel s1) s1 Hc) as (o6 & E & Hev6).
      rewrite E in Hrun. injection Hrun as <- <-.
      split; [by apply Forall_app|]. by split.
    + injection Hrun as <- <-. rewrite app_nil_r. split; [done|]. by split.
Qed.

Lemma iteration_inv k s out r :
  run_inv k s → pass k s = (out, r) →
  Forall (run_event (S k)) out ∧
  match r with
  | inl e =>
      ∃ j, j ∈ pipeline k ∧ e = KeyError (job_status j) ∧
           job_status j ∉ STATUSES
  | inr (None, s') => run_inv (S k) s'
  | inr (Some res, s') =>
      stress = false ∧ run_inv (S k) s' ∧
      ∃ o2, evaluate s' = (o2, inr (Some res, s'))
  end.
Proof.
  intros Hinv Hrun. unfold iteration in Hrun.
  apply run_bind_inv in Hrun
    as [(e & Hscan & ->) | (o1 & [] & s1 & o2 & Hscan & Hrun & ->)].
  - by destruct (dispatch_inv _ _ _ _ Hinv Hscan).
  - destruct (dispatch_inv _ _ _ _ Hinv Hscan) as [Hev Hinv1].
    destruct stress.
    + injection Hrun as <- <-. split; [|done].
      apply Forall_app. split; [done|]. by repeat constructor.
    + destruct (evaluate_cases s1) as (o & res & E & Hres).
      rewrite E in Hrun. injection Hrun as <- <-. split.
      * apply Forall_app. split; [done|].
        destruct res as [[[i|] [c|]]|]; try done; destruct Hres as [-> _];
          by repeat constructor.
      * destruct res as [res|]; [|done]. split; [done|]. split; [done|].
        by exists o.
Qed.

Lemma loop_inv n :
  ∀ k s out o,
    run_inv k s → loop n k s = (out, o) →
    Forall (run_event (k + n)) out ∧
    match o with
    | Looping s' => run_inv (k + n) s'
    | Raised e =>
        ∃ j, polled_upto (k + n) j ∧ e = KeyError (job_status j) ∧
             job_status j ∉ STATUSES
    | Returned res =>
        stress = false ∧
        ∃ s' o2, run_inv (k + n) s' ∧ evaluate s' = (o2, inr (Some res, s'))
    end.
Proof.
  induction n as [|n IH]; intros k s out o Hinv.
  - intros [= <- <-]. rewrite Nat.add_0_r. split; [by apply Forall_nil | done].
  - simpl. destruct (pass k s) as [o1 r] eqn:Hpass.
    destruct (iteration_inv _ _ _ _ Hinv Hpass) as [Hev Hres].
    assert (Forall (run_event (k + S n)) o1) as Hev'.
    { eapply Forall_impl; [exact Hev|]. intros e. apply run_event_mono. lia. }
    destruct r as [e | [[res|] s1]].
    + intros [= <- <-]. split; [done|].
      destruct Hres as (j & Hj & He). exists j. split; [|done].
      exists k. split; [lia | done].
    + intros [= <- <-]. split; [done|].
      destruct Hres as (Hs & Hinv1 & o2 & E). split; [done|].
      exists s1, o2. split; [|done]. apply (run_inv_mono (S k)); [lia | done].
    + destruct (loop n (S k) s1) as [o2 o'] eqn:Hloop. intros [= <- <-].
      destruct (IH _ _ _ _ Hres Hloop) as [Hev2 Ho].
      replace (S k + n)%nat with (k + S n)%nat in * by lia.
      split; [by apply Forall_app | done].
Qed.

Lemma run_inv_start : run_inv 0 (Locals ∅ ∅ 0 0 []).
Proof.
  split.
  - by intros j Hj%elem_of_nil.
  - by intros [] i x.
Qed.

Local Abbreviation monitor :=
  (monitor_pipeline re_match pipeline target_job dependencies force_manual
     stress).

Lemma monitor_inv n out o :
  monitor n = (out, o) →
  Forall (run_event n) out ∧
  match o with
  | Looping s' => run_inv n s'
  | Raised e =>
      ∃ j, polled_upto n j ∧ e = KeyError (job_status j) ∧
           job_status j ∉ STATUSES
  | Returned res =>
      stress = false ∧
      ∃ s' o2, run_inv n s' ∧ evaluate s' = (o2, inr (Some res, s'))
  end.
Proof. intros H. by apply (loop_inv n 0 _ _ _ run_inv_start) in H. Qed.

(** X6. Every cancel request of a run is for a polled job that, in that poll,
    was no target and no dependency and had a status other than canceled,
    success, failed and skipped; and none is issued without a target
    pattern. This holds for every run, also one that ends in an exception. *)
Theorem cancel_only_unrelated_unfinished n out o i :
  monitor_pipeline re_match pipeline target_job dependencies force_manual
    stress n = (out, o) →
  Cancel i ∈ out →
  target_given target_job = true ∧
  ∃ k j, (k < n)%nat ∧ j ∈ pipeline k ∧ job_id j = i ∧
         is_target j = false ∧
         (job_name j ∉ dependencies) ∧
         job_status j ∉ ["canceled"; "success"; "failed"; "skipped"].
Proof.
  intros [Hev _]%monitor_inv Hin.
  rewrite Forall_forall in Hev. apply Hev in Hin.
  destruct Hin as (j & (k & Hk & Hj) & Hid & Hm).
  unfold marked in Hm. rewrite !andb_true_iff, !negb_true_iff in Hm.
  destruct Hm as [[[Ht Hd] Hg] Hs].
  apply bool_decide_eq_false in Hd.
  rewrite <- not_true_iff_false, list_in_spec in Hs.
  split; [done|]. by exists k, j.
Qed.

(** X7. Every retry request of a run is made in stress mode, for a polled job
    that matched the target pattern and had status success or failed. *)
Theorem retry_only_finished_targets_in_stress n out o i :
  monitor_pipeline re_match pipeline target_job dependencies force_manual
    stress n = (out, o) →
  Retry i ∈ out →
  stress = true ∧
  ∃ k j, (k < n)%nat ∧ j ∈ pipeline k ∧ job_id j = i ∧
         is_target j = true ∧
         (job_status j = "success" ∨ job_status j = "failed").
Proof.
  intros [Hev _]%monitor_inv Hin.
  rewrite Forall_forall in Hev. apply Hev in Hin.
  destruct Hin as (j & (k & Hk & Hj) & Hid & Hs & Ht & Hst).
  split; [done|]. by exists k, j.
Qed.

(** X8. Every play request of a run is for a polled job with status manual:
    a target job when [force_manual] is set, or a job of the dependency
    set that does not match the target pattern. *)
Theorem play_only_manual_jobs n out o i :
  monitor_pipeline re_match pipeline target_job dependencies force_manual
    stress n = (out, o) →
  Play i ∈ out →
  ∃ k j, (k < n)%nat ∧ j ∈ pipeline k ∧ job_id j = i ∧
         job_status j = "manual" ∧
         ((is_target j = true ∧ force_manual = true) ∨
          (is_target j = false ∧ job_name j ∈ dependencies)).
Proof.
  intros [Hev _]%monitor_inv Hin.
  rewrite Forall_forall in Hev. apply Hev in Hin.
  destruct Hin as (j & (k & Hk & Hj) & Hid & Hst & Hwhy).
  exists k, j. repeat (split; [done|]).
  destruct (is_target j); [by left | by right].
Qed.

(** X9. While the loop runs, the two histories hold only statuses of
    [STATUS_COLORS], each the status that a polled job with that id had,
    target jobs in the one and the other jobs in the other. *)
Theorem histories_hold_polled_statuses n out s' :
  monitor_pipeline re_match pipeline target_job dependencies force_manual
    stress n = (out, Looping s') →
  (∀ i x, target_statuses s' !! i = Some x →
          x ∈ STATUSES ∧
          ∃ k j, (k < n)%nat ∧ j ∈ pipeline k ∧ is_target j = true ∧
                 job_id j = i ∧ job_status j = x) ∧
  (∀ i x, statuses s' !! i = Some x →
          x ∈ STATUSES ∧
          ∃ k j, (k < n)%nat ∧ j ∈ pipeline k ∧ is_target j = false ∧
                 job_id j = i ∧ job_status j = x).
Proof.
  intros [_ [_ Hh]]%monitor_inv. split; intros i x Hx.
  - destruct (Hh Target i x Hx) as (Hst & j & (k & Hk & Hj) & Hn & Hid & Hs).
    split; [done|]. exists k, j. repeat (split; [done|]). split; [|done].
    unfold history_name in Hn. by destruct (is_target j).
  - destruct (Hh General i x Hx) as (Hst & j & (k & Hk & Hj) & Hn & Hid & Hs).
    split; [done|]. exists k, j. repeat (split; [done|]). split; [|done].
    unfold history_name in Hn. by destruct (is_target j).
Qed.

(** X10. Once the target pattern has compiled (line 106 comes before the
    loop), the only exception that the statements of the loop of
    [monitor_pipeline] raise, the remote calls and the output aside, is the
    [KeyError] of a polled job whose status is not a key of [STATUS_COLORS];
    in particular the [next(iter(...))] of the hand-off never raises. *)
Theorem monitor_loop_raises_only_key_error n out e :
  monitor_loop re_match pipeline target_job dependencies force_manual stress
    n 0 (Locals ∅ ∅ 0 0 []) = (out, Raised e) →
  ∃ k j, (k < n)%nat ∧ j ∈ pipeline k ∧
         e = KeyError (job_status j) ∧ job_status j ∉ STATUSES.
Proof.
  intros H.
  destruct (loop_inv n 0 _ _ _ run_inv_start H)
    as [_ (j & (k & Hk & Hj) & He & Hunk)].
  by exists k, j.
Qed.

Lemma monitor_return_cases n out res :
  monitor n = (out, Returned res) →
  stress = false ∧
  ((∃ i, res = (Some i, None) ∧
         ∃ k j, (k < n)%nat ∧ j ∈ pipeline k ∧ is_target j = true ∧
                job_id j = i ∧ job_status j = "running") ∨
   (res = (None, Some 1) ∧
    ∃ k j, (k < n)%nat ∧ j ∈ pipeline k ∧ is_target j = true ∧
           (job_status j = "failed" ∨ job_status j = "canceled")) ∨
   res = (None, Some 0)).
Proof.
  intros [_ (Hs & s' & o2 & [_ Hh] & He)]%monitor_inv. split; [done|].
  destruct (evaluate_cases s') as (o & r & E & Hr).
  rewrite E in He. injection He as <- ->.
  destruct res as [[i|] [c|]]; try done.
  - left. exists i. split; [done|]. destruct Hr as [_ Hr].
    assert (target_statuses s' !! i = Some "running") as Hx.
    { rewrite Hr. apply lookup_singleton_eq. }
    destruct (Hh Target i _ Hx) as (_ & j & (k & Hk & Hj) & Hn & Hid & Hst).
    exists k, j. repeat (split; [done|]). split; [|done].
    unfold history_name in Hn. by destruct (is_target j).
  - destruct Hr as (_ & _ & [[-> (i & x & Hx & Hfc)] | [-> _]]).
    + right. left. split; [done|].
      destruct (Hh Target i x Hx) as (_ & j & (k & Hk & Hj) & Hn & _ & Hst).
      exists k, j. repeat (split; [done|]). split.
      * unfold history_name in Hn. by destruct (is_target j).
      * by rewrite Hst.
    + by right; right.
Qed.

(** X11. What [monitor_pipeline] returns, and why: never in stress mode; a
    hand-off only of the id of a polled target job seen running; exit code 1
    only when a polled target job was seen failed or canceled; and otherwise
    exit code 0. *)
Theorem monitor_returns_for_a_reason n out res :
  monitor_pipeline re_match pipeline target_job dependencies force_manual
    stress n = (out, Returned res) →
  stress = false ∧
  ((∃ i, res = (Some i, None) ∧
         ∃ k j, (k < n)%nat ∧ j ∈ pipeline k ∧ is_target j = true ∧
                job_id j = i ∧ job_status j = "running") ∨
   (res = (None, Some 1) ∧
    ∃ k j, (k < n)%nat ∧ j ∈ pipeline k ∧ is_target j = true ∧
           (job_status j = "failed" ∨ job_status j = "canceled")) ∨
   res = (None, Some 0)).
Proof. apply monitor_return_cases. Qed.

(** *** A status outside the table *)

Lemma run_bind_raise {A B} (m : M A) (f : A → M B) s out e :
  m s = (out, inl e) → (m ≫= f) s = (out, inl e).
Proof. intros H. unfold mbind, M_bind, bind. by rewrite H. Qed.

Lemma for_each_app_run {A} (f : A → M unit) (l1 l2 : list A) :
  ∀ s o1 s1,
    for_each l1 f s = (o1, inr (tt, s1)) →
    for_each (l1 ++ l2) f s
    = (o1 ++ (for_each l2 f s1).1, (for_each l2 f s1).2).
Proof.
  induction l1 as [|x l1 IH]; intros s o1 s1.
  - intros [= <- <-]. simpl. by destruct (for_each l2 f s).
  - change (for_each (x :: l1) f) with (f x ;; for_each l1 f).
    intros [(e & _ & [=]) | (oa & [] & sa & ob & Hx & Hl & ->)]%run_bind_inv.
    change (for_each ((x :: l1) ++ l2) f)
      with (f x ;; for_each (l1 ++ l2) f).
    rewrite (run_bind _ _ _ _ _ _ Hx), (IH _ _ _ Hl). simpl.
    by rewrite app_assoc.
Qed.

Lemma target_unknown_raises j s :
  is_target j = true → job_status j ∉ STATUSES →
  body j s = ([], inl (KeyError (job_status j))).
Proof.
  intros Ht Hunk. unfold job_body. rewrite Ht.
  assert (∀ x, x ∈ STATUSES → String.eqb (job_status j) x = false) as Hne.
  { intros x Hx. apply String.eqb_neq. by intros <-. }
  assert (assoc (job_status j) STATUS_COLORS = None) as Hcol.
  { apply eq_None_not_Some. by rewrite colour_iff_status. }
  unfold target_body, list_in, existsb.
  cbv [mbind M_bind bind mret M_ret ret emit modify gets when raise
       print_job_status print_job_status_change status_color].
  rewrite !Hne by (apply list_in_spec; reflexivity).
  rewrite Hcol, !andb_false_r. simpl.
  by destruct (status_changed _ _).
Qed.

(** X12. When a polled list holds a target job whose status is not a key of
    [STATUS_COLORS], after jobs with statuses of the enumeration, the
    iteration raises the [KeyError] of that status, in either mode, before
    any cancel request of that iteration is issued. *)
Theorem unknown_target_status_aborts n k s l1 j l2 :
  pipeline k = l1 ++ j :: l2 →
  (∀ j', j' ∈ l1 → job_status j' ∈ STATUSES) →
  is_target j = true →
  job_status j ∉ STATUSES →
  ∃ out,
    loop (S n) k s = (out, Raised (KeyError (job_status j))) ∧
    cancels out = [].
Proof.
  intros Hk Hl1 Ht Hunk.
  destruct (for_each_body_spec re_match target_job dependencies force_manual
              stress l1 (set_to_cancel (λ _, []) s) Hl1)
    as (o1 & s1 & E1 & _ & _ & _ & _ & Hc1).
  exists o1. split; [|done].
  assert (scan k s = (o1, inl (KeyError (job_status j)))) as Hscan.
  { unfold dispatch.
    rewrite (run_bind (modify _) _ s [] tt (set_to_cancel (λ _, []) s) eq_refl).
    simpl. rewrite Hk.
    rewrite (run_bind_raise _ _ _ o1 (KeyError (job_status j))); [done|].
    rewrite (for_each_app_run _ _ _ _ _ _ E1).
    change (for_each (j :: l2) body) with (body j ;; for_each l2 body).
    rewrite (run_bind_raise _ _ _ _ _ (target_unknown_raises j s1 Ht Hunk)).
    simpl. by rewrite app_nil_r. }
  simpl. unfold iteration. by rewrite (run_bind_raise _ _ _ _ _ Hscan).
Qed.

(** *** What the histories hold after a scan *)

(** Every stored status is one of the enumeration. *)
Definition hist_known (s : locals) : Prop :=
  ∀ h i x, hist h s !! i = Some x → x ∈ STATUSES.

Lemma for_each_tracks (l : list job) :
  ∀ s out s',
    NoDup (job_id <$> l) →
    (∀ j, j ∈ l → job_status j ∈ STATUSES) →
    hist_known s →
    for_each l body s = (out, inr (tt, s')) →
    hist_known s' ∧
    (∀ j, j ∈ l →
          hist (history_name re_match target_job j) s' !! job_id j
          = Some (job_status j)) ∧
    (∀ h i, i ∉ job_id <$> l → hist h s' !! i = hist h s !! i).
Proof.
  induction l as [|j l IH]; intros s out s' Hnd Hst Hknown.
  - intros [= <- <-]. split; [done|]. split; [|done].
    by intros j Hj%elem_of_nil.
  - change (for_each (j :: l) body) with (body j ;; for_each l body).
    intros [(e & _ & [=]) | (o1 & [] & s1 & o2 & Hj & Hl & ->)]%run_bind_inv.
    apply NoDup_cons in Hnd as [Hfresh Hnd].
    destruct (job_body_run j s o1 _ Hj) as [_ (_ & Hent & Hframe)].
    assert (hist_known s1) as Hknown1.
    { intros h i x Hx. destruct (Hent h i x Hx) as [Hold | (_ & _ & _ & ?)];
        [by eapply Hknown | done]. }
    assert (hist (history_name re_match target_job j) s1 !! job_id j
            = Some (job_status j)) as Hhead.
    { eapply job_body_tracks; [apply Hst; left | | exact Hj].
      intros old Hold. by eapply Hknown. }
    destruct (IH s1 o2 s' Hnd) as (Hknown' & Htail & Hrest);
      [intros j' Hj'; apply Hst; by right | done | done |].
    split; [done|]. split.
    + intros j' [-> | Hj']%elem_of_cons; [|by apply Htail].
      by rewrite Hrest.
    + intros h i Hi. rewrite Hrest.
      * apply Hframe. intros [= -> ->]. apply Hi. left.
      * intros Hin. apply Hi. by right.
Qed.

Lemma dispatch_scan_inv k s out s' :
  scan k s = (out, inr (tt, s')) →
  ∃ o1, for_each (pipeline k) body (set_to_cancel (λ _, []) s)
        = (o1, inr (tt, s')).
Proof.
  unfold dispatch.
  intros [(e & [=] & _) | (o0 & [] & s0 & o & [= <- <-] & Hrun & ->)]%run_bind_inv.
  apply run_bind_inv in Hrun
    as [(e & _ & [=]) | (o1 & [] & s1 & o2 & Hscan & Hrun & ->)].
  exists o1. destruct (target_given target_job); simpl in Hrun.
  - apply run_bind_inv in Hrun
      as [(e & [=] & _) | (o4 & l & s2 & o5 & [= <- <- <-] & Hrun & _)].
    destruct (cancel_jobs_spec (to_cancel s1) s1) as (o6 & E & _).
    rewrite E in Hrun. by injection Hrun as _ <-.
  - by injection Hrun as _ <-.
Qed.

(** X13. After a scan that ends without exception, of jobs with distinct ids and
    statuses of the enumeration, on histories that hold statuses of the
    enumeration: the history of every polled job holds, under its id, the
    status just polled; the entries of the ids not polled are as before. *)
Theorem scan_records_polled_statuses k s out s' :
  NoDup (job_id <$> pipeline k) →
  (∀ j, j ∈ pipeline k → job_status j ∈ STATUSES) →
  hist_known s →
  scan k s = (out, inr (tt, s')) →
  (∀ j, j ∈ pipeline k →
        if is_target j
        then target_statuses s' !! job_id j = Some (job_status j)
        else statuses s' !! job_id j = Some (job_status j)) ∧
  (∀ i, i ∉ job_id <$> pipeline k →
        target_statuses s' !! i = target_statuses s !! i ∧
        statuses s' !! i = statuses s !! i).
Proof.
  intros Hnd Hst Hknown [o1 Hscan]%dispatch_scan_inv.
  destruct (for_each_tracks _ (set_to_cancel (λ _, []) s) _ _
              Hnd Hst Hknown Hscan)
    as (_ & Htrack & Hrest).
  split.
  - intros j Hj. specialize (Htrack j Hj). unfold history_name in Htrack.
    by destruct (is_target j).
  - intros i Hi. split; [apply (Hrest Target i Hi) | apply (Hrest General i Hi)].
Qed.

(** *** Polling the same list again *)

(** Neither a history store nor a "new status" line. *)
Definition quiet (e : event) : Prop :=
  match e with
  | Store _ _ _ | PrintStatusChange _ _ => False
  | _ => True
  end.

Lemma quiet_output (out : list event) :
  Forall quiet out →
  stores out = [] ∧ ∀ c j, PrintStatusChange c j ∉ out.
Proof.
  induction 1 as [|e out He Hout [IHs IHp]].
  - split; [done|]. intros c j. apply not_elem_of_nil.
  - split.
    + destruct e; simpl in *; done.
    + intros c j [<- | Hin]%elem_of_cons; [done|]. by apply (IHp c j).
Qed.

Lemma job_body_unchanged j s :
  job_status j ∈ STATUSES →
  hist (history_name re_match target_job j) s !! job_id j
  = Some (job_status j) →
  ∃ out s',
    body j s = (out, inr (tt, s')) ∧ Forall quiet out ∧
    statuses s' = statuses s ∧ target_statuses s' = target_statuses s.
Proof.
  intros Hst Hsame.
  assert (status_changed (hist (history_name re_match target_job j) s) j
          = false) as Hch.
  { unfold status_changed. rewrite Hsame.
    apply negb_false_iff, str_in_statuses; done. }
  revert Hsame Hch. unfold history_name, job_body.
  destruct j as [i nm st url], s as [ss ts sc fl tc]. simpl in *.
  destruct (is_target _); simpl; intros _ Hch.
  - unfold target_body. unfold STATUSES in Hst. status_cases Hst.
    all: destruct force_manual, stress; run_body.
    all: rewrite Hch; simpl.
    all: (do 2 eexists); (split; [reflexivity|]).
    all: by repeat constructor.
  - unfold other_body. unfold STATUSES in Hst. status_cases Hst.
    all: destruct (bool_decide _), (target_given target_job); run_body.
    all: rewrite Hch; simpl.
    all: (do 2 eexists); (split; [reflexivity|]).
    all: by repeat constructor.
Qed.

Lemma for_each_unchanged (l : list job) :
  ∀ s,
    (∀ j, j ∈ l → job_status j ∈ STATUSES) →
    (∀ j, j ∈ l →
          hist (history_name re_match target_job j) s !! job_id j
          = Some (job_status j)) →
    ∃ out s',
      for_each l body s = (out, inr (tt, s')) ∧ Forall quiet out ∧
      statuses s' = statuses s ∧ target_statuses s' = target_statuses s.
Proof.
  induction l as [|j l IH]; intros s Hst Hsame.
  - exists [], s. by repeat split.
  - destruct (job_body_unchanged j s) as (o1 & s1 & E1 & Hq1 & Hs1 & Ht1);
      [apply Hst; left | apply Hsame; left |].
    destruct (IH s1) as (o2 & s2 & E2 & Hq2 & Hs2 & Ht2).
    { intros j' Hj'. apply Hst. by right. }
    { intros j' Hj'. rewrite <- (Hsame j') by by right.
      unfold hist. destruct (history_name _ _ j'); congruence. }
    exists (o1 ++ o2), s2. split.
    { change (for_each (j :: l) body) with (body j ;; for_each l body).
      rewrite (run_bind _ _ _ _ _ _ E1). by rewrite E2. }
    split; [by apply Forall_app|]. split; congruence.
Qed.

Lemma cancel_jobs_quiet (l : list job) s :
  ∃ out, cancel_jobs l s = (out, inr (tt, s)) ∧ Forall quiet out.
Proof.
  assert (∃ out, for_each l cancel_job s = (out, inr (tt, s)) ∧
                 Forall quiet out) as (out & E & Hq).
  { induction l as [|j l (out & E & Hq)]; [by exists []|].
    exists (Cancel (job_id j) :: PrintCancelled (job_name j) :: out). split.
    - change (for_each (j :: l) cancel_job)
        with (cancel_job j ;; for_each l cancel_job).
      rewrite (run_bind _ _ s [Cancel (job_id j); PrintCancelled (job_name j)]
                 tt s eq_refl).
      by rewrite E.
    - by repeat constructor. }
  destruct l as [|j l]; [by exists []|].
  exists (out ++ [PrintNewline]). split.
  - unfold cancel_jobs. by rewrite (run_bind _ _ _ _ _ _ E).
  - apply Forall_app. split; [done|]. by repeat constructor.
Qed.

(** X14. When a scan has ended without exception (distinct ids, statuses of the
    enumeration, on histories holding statuses of the enumeration), a later
    scan of the same job list ends without exception too, stores nothing in
    the histories, prints no "new status" line and leaves both histories as
    they are. *)
Theorem repoll_changes_nothing k k' s o1 s1 :
  pipeline k' = pipeline k →
  NoDup (job_id <$> pipeline k) →
  (∀ j, j ∈ pipeline k → job_status j ∈ STATUSES) →
  hist_known s →
  scan k s = (o1, inr (tt, s1)) →
  ∃ o2 s2,
    scan k' s1 = (o2, inr (tt, s2)) ∧
    stores o2 = [] ∧
    (∀ c j, PrintStatusChange c j ∉ o2) ∧
    statuses s2 = statuses s1 ∧
    target_statuses s2 = target_statuses s1.
Proof.
  intros Hk' Hnd Hst Hknown [o Hscan]%dispatch_scan_inv.
  destruct (for_each_tracks _ (set_to_cancel (λ _, []) s) _ _
              Hnd Hst Hknown Hscan) as (_ & Htrack & _).
  destruct (for_each_unchanged (pipeline k) (set_to_cancel (λ _, []) s1)
              Hst Htrack) as (o2 & s2 & E2 & Hq2 & Hs2 & Ht2).
  destruct (cancel_jobs_quiet (to_cancel s2) s2) as (o3 & E3 & Hq3).
  exists (o2 ++ if target_given target_job then o3 else []), s2.
  split.
  { unfold dispatch. rewrite Hk'.
    rewrite (run_bind (modify _) _ s1 [] tt (set_to_cancel (λ _, []) s1) eq_refl).
    rewrite (run_bind _ _ _ _ _ _ E2). simpl.
    destruct (target_given target_job); simpl; [|by rewrite app_nil_r].
    rewrite (run_bind (gets _) _ s2 [] (to_cancel s2) s2 eq_refl).
    by rewrite E3. }
  assert (Forall quiet (o2 ++ if target_given target_job then o3 else []))
    as Hq.
  { apply Forall_app. split; [done|]. by destruct (target_given target_job). }
  apply quiet_output in Hq as [Hstores Hprints].
  by repeat split.
Qed.

(** *** What a scan prints *)

(** An event that the scan of the jobs and the cancellations can produce. *)
Definition scan_output (e : event) : Prop :=
  match e with
  | PrintSeparator | PrintTally _ _ | Wait _
  | PrintLine _ | PrintFinished _ | PrintDuration => False
  | _ => True
  end.

Lemma for_each_output (l : list job) :
  ∀ s out r, for_each l body s = (out, r) → Forall scan_output out.
Proof.
  induction l as [|j l IH]; intros s out r.
  - intros [= <- <-]. constructor.
  - change (for_each (j :: l) body) with (body j ;; for_each l body).
    intros [(e & Hj & ->) | (o1 & [] & s1 & o2 & Hj & Hl & ->)]%run_bind_inv.
    + destruct (job_body_run j s out _ Hj) as [Hev _].
      eapply Forall_impl; [exact Hev|]. intros e' He'. by destruct e'.
    + apply Forall_app. split; [|by eapply IH].
      destruct (job_body_run j s o1 _ Hj) as [Hev _].
      eapply Forall_impl; [exact Hev|]. intros e' He'. by destruct e'.
Qed.

Lemma cancel_jobs_output (l : list job) s :
  ∃ out, cancel_jobs l s = (out, inr (tt, s)) ∧ Forall scan_output out.
Proof.
  assert (∃ out, for_each l cancel_job s = (out, inr (tt, s)) ∧
                 Forall scan_output out) as (out & E & Hq).
  { induction l as [|j l (out & E & Hq)]; [by exists []|].
    exists (Cancel (job_id j) :: PrintCancelled (job_name j) :: out). split.
    - change (for_each (j :: l) cancel_job)
        with (cancel_job j ;; for_each l cancel_job).
      rewrite (run_bind _ _ s [Cancel (job_id j); PrintCancelled (job_name j)]
                 tt s eq_refl).
      by rewrite E.
    - by repeat constructor. }
  destruct l as [|j l]; [by exists []|].
  exists (out ++ [PrintNewline]). split.
  - unfold cancel_jobs. by rewrite (run_bind _ _ _ _ _ _ E).
  - apply Forall_app. split; [done|]. by repeat constructor.
Qed.

Lemma dispatch_output k s out r :
  scan k s = (out, r) → Forall scan_output out.
Proof.
  unfold dispatch.
  intros [(e & [=] & _) | (o0 & [] & s0 & o & [= <- <-] & Hrun & ->)]%run_bind_inv.
  apply run_bind_inv in Hrun
    as [(e & Hscan & ->) | (o1 & [] & s1 & o2 & Hscan & Hrun & ->)].
  - simpl. by eapply for_each_output.
  - simpl. apply Forall_app. split; [by eapply for_each_output|].
    destruct (target_given target_job); simpl in Hrun.
    + apply run_bind_inv in Hrun
        as [(e & [=] & _) | (o4 & l & s2 & o5 & [= <- <- <-] & Hrun & ->)].
      destruct (cancel_jobs_output (to_cancel s1) s1) as (o6 & E & H6).
      rewrite E in Hrun. by injection Hrun as <- <-.
    + injection Hrun as <- <-. constructor.
Qed.

End provenance.

(** ** The stress counters over a run *)

Section stress_total.

Variable re_match : string → string → bool.
Variable pipeline : nat → list job.
Variable target_job : option string.
Variable dependencies : gset string.
Variable force_manual : bool.

Local Abbreviation loop :=
  (monitor_loop re_match pipeline target_job dependencies force_manual true).
Local Abbreviation counted_as :=
  (targets_with re_match target_job).

Lemma targets_with_app st (l1 l2 : list job) :
  counted_as st (l1 ++ l2) = counted_as st l1 ++ counted_as st l2.
Proof. unfold targets_with. apply List.filter_app. Qed.

(** X15. In stress mode (statuses of the enumeration), after [n] iterations the
    success counter has grown by the number of target jobs polled with
    status "success" in those [n] job lists together, and the failure
    counter by the number polled with status "failed"; a job polled twice
    counts twice. *)
Theorem stress_counters_count_polls n :
  (∀ k j, j ∈ pipeline k → job_status j ∈ STATUSES) →
  ∀ k s,
    ∃ out s',
      loop n k s = (out, Looping s') ∧
      stress_succ s' =
        stress_succ s +
        Z.of_nat (length (counted_as "success"
                            (concat (pipeline <$> seq k n)))) ∧
      stress_fail s' =
        stress_fail s +
        Z.of_nat (length (counted_as "failed"
                            (concat (pipeline <$> seq k n)))).
Proof.
  intros Hst. induction n as [|n IH]; intros k s.
  - exists [], s. simpl. by rewrite !Z.add_0_r.
  - destruct (stress_pass re_match pipeline target_job dependencies
                force_manual k s (Hst k))
      as (o1 & s1 & _ & Hpass & Hs1 & Hf1).
    destruct (IH (S k) s1) as (o2 & s2 & E2 & Hs2 & Hf2).
    eexists _, s2. split.
    { simpl. by rewrite Hpass, E2. }
    simpl seq. rewrite fmap_cons. simpl concat.
    rewrite !targets_with_app, !length_app, Hs2, Hf2, Hs1, Hf1.
    split; lia.
Qed.

Local Abbreviation scan :=
  (dispatch re_match pipeline target_job dependencies force_manual true).
Local Abbreviation pass :=
  (iteration re_match pipeline target_job dependencies force_manual true).

(** The tallies printed in an output, in order. *)
Definition tallies (out : list event) : list (Z * Z) :=
  omap (λ e, match e with PrintTally a b => Some (a, b) | _ => None end) out.

(** The number of target jobs with status [st] in the [n] polled job lists
    from the [k]-th on. *)
Definition polled_count (st : string) (k n : nat) : Z :=
  Z.of_nat (length (counted_as st (concat (pipeline <$> seq k n)))).

Lemma tallies_app out1 out2 : tallies (out1 ++ out2) = tallies out1 ++ tallies out2.
Proof. apply omap_app. Qed.

Lemma scan_output_silent (out : list event) :
  Forall scan_output out → tallies out = [] ∧ PrintSeparator ∉ out.
Proof.
  induction 1 as [|e out He Hout [IHt IHs]].
  - split; [done|]. apply not_elem_of_nil.
  - split.
    + destruct e; simpl in *; done.
    + intros [<- | Hin]%elem_of_cons; [done|]. by apply IHs.
Qed.

Lemma polled_count_S st k n :
  polled_count st k (S n) =
  Z.of_nat (length (counted_as st (pipeline k))) + polled_count st (S k) n.
Proof.
  unfold polled_count. simpl seq. rewrite fmap_cons. simpl concat.
  rewrite targets_with_app, length_app. lia.
Qed.

Lemma polled_count_0 st k : polled_count st k 0 = 0.
Proof. reflexivity. Qed.

(** The whole trace of a run in stress mode. *)
Lemma stress_loop_trace n :
  (∀ k j, j ∈ pipeline k → job_status j ∈ STATUSES) →
  ∀ k s,
    ∃ out s',
      loop n k s = (out, Looping s') ∧
      stress_succ s' = stress_succ s + polled_count "success" k n ∧
      stress_fail s' = stress_fail s + polled_count "failed" k n ∧
      tallies out =
        (λ i, (stress_succ s + polled_count "success" k (S i),
               stress_fail s + polled_count "failed" k (S i))) <$> seq 0 n ∧
      PrintSeparator ∉ out.
Proof.
  intros Hst. induction n as [|n IH]; intros k s.
  - exists [], s. rewrite !polled_count_0, !Z.add_0_r.
    repeat split; try done. apply not_elem_of_nil.
  - destruct (stress_pass re_match pipeline target_job dependencies
                force_manual k s (Hst k))
      as (o1 & s1 & Hscan & Hpass & Hs1 & Hf1).
    apply dispatch_output, scan_output_silent in Hscan as [Ht1 Hsep1].
    destruct (IH (S k) s1) as (o2 & s2 & E2 & Hs2 & Hf2 & Ht2 & Hsep2).
    eexists _, s2. split.
    { simpl. by rewrite Hpass, E2. }
    rewrite !polled_count_S. split; [lia|]. split; [lia|]. split.
    + rewrite !tallies_app, Ht1, Ht2. simpl.
      rewrite <- fmap_S_seq, <- list_fmap_compose.
      f_equal.
      * rewrite !polled_count_S, !polled_count_0. f_equal; lia.
      * apply list_fmap_ext. intros _ i _. simpl.
        rewrite (polled_count_S "success" k), (polled_count_S "failed" k).
        f_equal; lia.
    + intros [[Hin | Hin]%elem_of_app | Hin]%elem_of_app.
      * by apply Hsep1.
      * apply elem_of_cons in Hin as [[=] | Hin].
        apply elem_of_cons in Hin as [[=] | Hin]. by apply elem_of_nil in Hin.
      * by apply Hsep2.
Qed.

(** In stress mode no number of iterations makes the loop return, whatever
    the jobs and the local variables it starts from. *)
Lemma stress_loop_no_return n :
  ∀ k s out res, loop n k s ≠ (out, Returned res).
Proof.
  induction n as [|n IH]; intros k s out res; [done|].
  simpl. destruct (pass k s) as [o1 r] eqn:Hpass.
  unfold iteration in Hpass.
  apply run_bind_inv in Hpass
    as [(e & _ & ->) | (o & [] & s1 & o2 & _ & Hrun & ->)]; [done|].
  injection Hrun as <- <-.
  destruct (loop n (S k) s1) as [o2 o'] eqn:Hloop.
  intros [= <- ->]. by apply IH in Hloop.
Qed.

(** C7. In stress mode [monitor_pipeline] never returns, whatever the jobs
    polled and however many iterations it is given. When the jobs have
    statuses of the enumeration it is still in its loop after any number
    [n] of iterations; its output up to there holds [n] tallies, one per
    iteration, the [i]-th showing the counters after [i] polls, and no
    separator line: the termination checks were never run. Each counter is
    then the number of target jobs polled with status "success" ("failed")
    in the [n] job lists, every iteration adding one for each such job of
    its list. *)
Theorem stress_mode_never_returns :
  (∀ n out res,
      monitor_pipeline re_match pipeline target_job dependencies
        force_manual true n ≠ (out, Returned res)) ∧
  ((∀ k j, j ∈ pipeline k → job_status j ∈ STATUSES) →
  (∀ n, ∃ out s',
      monitor_pipeline re_match pipeline target_job dependencies
        force_manual true n = (out, Looping s') ∧
      stress_succ s' = polled_count "success" 0 n ∧
      stress_fail s' = polled_count "failed" 0 n ∧
      tallies out =
        (λ i, (polled_count "success" 0 (S i),
               polled_count "failed" 0 (S i))) <$> seq 0 n ∧
      PrintSeparator ∉ out) ∧
  (∀ n k s, ∃ out s',
      loop n k s = (out, Looping s') ∧
      stress_succ s' = stress_succ s + polled_count "success" k n ∧
      stress_fail s' = stress_fail s + polled_count "failed" k n ∧
      tallies out =
        (λ i, (stress_succ s + polled_count "success" k (S i),
               stress_fail s + polled_count "failed" k (S i))) <$> seq 0 n ∧
      PrintSeparator ∉ out) ∧
  (∀ k s, ∃ out s',
      scan k s = (out, inr (tt, s')) ∧
      pass k s =
        (out ++ [PrintTally (stress_succ s') (stress_fail s');
                 Wait REFRESH_WAIT_JOBS],
         inr (None, s')) ∧
      stress_succ s' =
        stress_succ s +
        Z.of_nat (length (counted_as "success" (pipeline k))) ∧
      stress_fail s' =
        stress_fail s +
        Z.of_nat (length (counted_as "failed" (pipeline k))))).
Proof.
  split; [intros n; apply stress_loop_no_return|].
  intros Hst. split; [|split].
  - intros n.
    destruct (stress_loop_trace n Hst 0%nat (Locals ∅ ∅ 0 0 []))
      as (out & s' & E & Hs & Hf & Ht & Hsep).
    exists out, s'. by repeat split.
  - intros n k s. by apply stress_loop_trace.
  - intros k s.
    apply (stress_pass re_match pipeline target_job dependencies
             force_manual k s (Hst k)).
Qed.

End stress_total.

(** ** The exit status of the script *)

Section exit_codes.

Variable re_match : string → string → bool.
Variable pipeline : nat → list job.
Variable decode_lines : string → option (list string).
Variable project_job : Z → nat → snapshot.
Variable target_job : option string.
Variable dependencies : gset string.
Variables force_manual stress : bool.

(** X16. When the script exits after [monitor_pipeline] has returned, stress mode
    is off and the exit status is 0 or 1; it is 1 only when a polled job
    that matches the target pattern was seen failed or canceled. *)
Theorem exit_status_is_zero_or_one n m out c :
  main re_match pipeline decode_lines project_job target_job dependencies
    force_manual stress n m = (out, Returned c) →
  stress = false ∧
  (c = 0 ∨
   (c = 1 ∧
    ∃ k j, (k < n)%nat ∧ j ∈ pipeline k ∧
           matches_target re_match target_job j = true ∧
           (job_status j = "failed" ∨ job_status j = "canceled"))).
Proof.
  unfold main.
  destruct (monitor_pipeline _ _ _ _ _ _ n) as [o [res | e | s']] eqn:Hmon;
    [|done|done].
  destruct (monitor_return_cases _ _ _ _ _ _ _ _ _ Hmon)
    as [Hs [(i & -> & _) | [[-> Hfail] | ->]]].
  - destruct (truthy_id (Some i)).
    + destruct (print_log decode_lines project_job i m) as [o' [[]| |]];
        [|done|done].
      intros [= <- <-]. split; [done|]. by left.
    + intros [= <- <-]. split; [done|]. by left.
  - intros [= <- <-]. split; [done|]. by right.
  - intros [= <- <-]. split; [done|]. by left.
Qed.

End exit_codes.

(** * The properties on concrete runs *)

Module Examples.

(** A stand-in for the regular-expression engine: the pattern as a literal
    prefix of the name. *)
Definition literal_match (p name : string) : bool := String.prefix p name.

Definition trace_running := Job 7 "trace-test" "running" "https://ci/7".
Definition trace_success := Job 7 "trace-test" "success" "https://ci/7".
Definition trace_failed := Job 7 "trace-test" "failed" "https://ci/7".
Definition build_pending := Job 8 "build" "pending" "https://ci/8".
Definition lint_manual := Job 9 "lint" "manual" "https://ci/9".
Definition docs_success := Job 10 "docs" "success" "https://ci/10".

Definition build_a_failed := Job 1 "build-a" "failed" "https://ci/1".
Definition build_a_success := Job 1 "build-a" "success" "https://ci/1".
Definition build_b_success := Job 2 "build-b" "success" "https://ci/2".
Definition build_c_success := Job 3 "build-c" "success" "https://ci/3".

Definition start : locals := Locals ∅ ∅ 0 0 [].

(** The state after a poll that saw [trace-test] running and [build]
    pending. *)
Definition seen : locals := Locals {[8 := "pending"]} {[7 := "running"]} 0 0 [].

(** A stand-in for the codec and [splitlines], enough for the logs below:
    as [raw_unicode_escape] does, it rejects a log in which a backslash is
    followed by [u] ([U]) and then by fewer than four (eight) hexadecimal
    digits; the other logs it splits at the newlines. *)
Definition is_hex (c : ascii) : bool :=
  let n := nat_of_ascii c in
  ((48 <=? n) && (n <=? 57) || (97 <=? n) && (n <=? 102) ||
   (65 <=? n) && (n <=? 70))%nat.

Fixpoint hex_run (count : nat) (s : string) : option string :=
  match count with
  | O => Some s
  | S count' =>
      match s with
      | String h s' => if is_hex h then hex_run count' s' else None
      | EmptyString => None
      end
  end.

Fixpoint escapes_ok (fuel : nat) (s : string) : bool :=
  match fuel with
  | O => true
  | S fuel' =>
      match s with
      | EmptyString => true
      | String c rest =>
          if negb (Ascii.eqb c "\"%char) then escapes_ok fuel' rest else
          match rest with
          | EmptyString => true
          | String c2 rest' =>
              if Ascii.eqb c2 "u"%char then
                match hex_run 4 rest' with
                | Some after => escapes_ok fuel' after
                | None => false
                end
              else if Ascii.eqb c2 "U"%char then
                match hex_run 8 rest' with
                | Some after => escapes_ok fuel' after
                | None => false
                end
              else escapes_ok fuel' rest'
          end
      end
  end.

Definition newline : ascii := ascii_of_nat 10.

Definition sample_decode (trace : string) : option (list string) :=
  if escapes_ok (String.length trace) trace then
    let parts := split_char newline trace in
    Some (if String.eqb (List.last parts "x") "" then removelast parts
          else parts)
  else None.

(** A log that grows by one line while the job runs and then fails. *)
Definition failing_job (_ : Z) (k : nat) : snapshot :=
  match k with
  | O => Snapshot "compile" "running" "https://ci/7"
  | _ =>
      Snapshot ("compile" +:+ String newline "test: FAIL") "failed"
        "https://ci/7"
  end.


Lemma single_running_target_hands_off_witness :
  ∃ out,
    monitor_loop literal_match (λ _, [trace_running; build_pending])
      (Some "trace") ∅ false false 1 0 start
    = (out, Returned (Some 7, None)).
Proof.
  eexists.
  refine (proj2 (single_running_target_hands_off literal_match
                   (λ _, [trace_running; build_pending]) (Some "trace") ∅
                   false 0 0 start _ _ 7 _ _ _)).
  - vm_compute. reflexivity.
  - vm_compute. reflexivity.
  - vm_compute. reflexivity.
Defined.

Lemma failed_target_returns_failure_witness :
  ∃ out,
    monitor_loop literal_match
      (λ _, [build_a_failed; build_b_success; build_c_success])
      (Some "build") ∅ false false 1 0 start
    = (out, Returned (None, Some 1)).
Proof.
  eexists.
  refine (proj2 (failed_target_returns_failure literal_match
                   (λ _, [build_a_failed; build_b_success; build_c_success])
                   (Some "build") ∅ false 0 0 start _ _ _ _ _)).
  - vm_compute. reflexivity.
  - intros [Hsize _]. vm_compute in Hsize. discriminate Hsize.
  - exists 1, "failed". split; [vm_compute; reflexivity | by left].
Defined.

Lemma success_or_manual_returns_success_witness :
  ∃ out,
    monitor_loop literal_match (λ _, [build_a_success; build_b_success])
      (Some "build") ∅ false false 1 0 start
    = (out, Returned (None, Some 0)).
Proof.
  eexists.
  refine (proj2 (proj1 (success_or_manual_returns_success literal_match
                          (λ _, [build_a_success; build_b_success])
                          (Some "build") ∅ false 0 0 start _ _ _) _ _ _)).
  - vm_compute. reflexivity.
  - intros [Hsize _]. vm_compute in Hsize. discriminate Hsize.
  - intros (i & x & Hi & Hx).
    apply (all_values_check (String.eqb "success")) in Hi;
      [|vm_compute; reflexivity].
    apply String.eqb_eq in Hi. destruct Hx; congruence.
  - intros i x Hi.
    apply (all_values_check (String.eqb "success")) in Hi;
      [|vm_compute; reflexivity].
    apply String.eqb_eq in Hi. by left.
Defined.

Lemma empty_history_returns_success_witness :
  ∃ out,
    monitor_pipeline literal_match (λ _, [build_pending; lint_manual])
      None ∅ false false 1
    = (out, Returned (None, Some 0)).
Proof.
  apply (proj2 (empty_history_returns_success literal_match
                  (λ _, [build_pending; lint_manual]) None ∅ false 0)).
  - apply statuses_known_check. reflexivity.
  - left. reflexivity.
Defined.

Lemma cancellation_marks_exactly_the_rest_witness :
  ∃ out s',
    dispatch literal_match
      (λ _, [trace_running; build_pending; lint_manual; docs_success])
      (Some "trace") {["lint"]} false false 0 start
    = (out, inr (tt, s')) ∧
    cancels out = job_id <$> to_cancel s' ∧
    (build_pending ∈ to_cancel s' ↔
     build_pending ∈ [trace_running; build_pending; lint_manual;
                      docs_success] ∧
     matches_target literal_match (Some "trace") build_pending = false ∧
     (job_name build_pending ∉@{gset string} {["lint"]}) ∧
     job_status build_pending ∉
       ["canceled"; "success"; "failed"; "skipped"]).
Proof.
  destruct (cancellation_marks_exactly_the_rest literal_match
              (λ _, [trace_running; build_pending; lint_manual; docs_success])
              (Some "trace") {["lint"]} false false 0 start)
    as (out & s' & Hscan & Hiff & Hcancels & _).
  - reflexivity.
  - apply statuses_known_check. reflexivity.
  - exists out, s'. split; [exact Hscan|]. split; [exact Hcancels|].
    apply Hiff.
Defined.

Lemma tracker_reports_change_iff_status_differs_witness :
  status_changed (target_statuses seen) trace_success = true ∧
  ∃ out s',
    job_body literal_match (Some "trace") ∅ false false trace_success seen
    = (out, inr (tt, s')) ∧
    stores out = [(Target, 7, "success")] ∧
    target_statuses s' = <[7 := "success"]> (target_statuses seen).
Proof.
  destruct (tracker_reports_change_iff_status_differs literal_match
              (Some "trace") ∅ false false trace_success seen)
    as (_ & _ & out & s' & Hbody & Hif).
  - apply list_in_spec. reflexivity.
  - intros old Hold. vm_compute in Hold. injection Hold as <-.
    apply list_in_spec. reflexivity.
  - split; [reflexivity|]. exists out, s'. split; [exact Hbody|].
    exact Hif.
Defined.

Lemma unchanged_status_stores_nothing_witness :
  ∃ out s',
    job_body literal_match (Some "trace") ∅ false false trace_running seen
    = (out, inr (tt, s')) ∧
    stores out = [] ∧
    target_statuses s' = target_statuses seen ∧
    status_lines out = [PrintStatus BLUE trace_running].
Proof.
  destruct (unchanged_status_stores_nothing literal_match
              (Some "trace") ∅ false false trace_running seen)
    as (out & s' & c & Hbody & Hstores & _ & Hts & Hc & Hlines).
  - apply list_in_spec. reflexivity.
  - reflexivity.
  - exists out, s'. split; [exact Hbody|]. split; [exact Hstores|].
    split; [exact Hts|]. injection Hc as <-. exact Hlines.
Defined.

(** C6, as the specification states it, fails: re-polling the target job
    [trace-test], still running, prints the "unchanged" line but stores
    nothing; re-polling the non-target job [build], still pending, neither
    stores nor prints anything (it only marks the job for cancellation). *)
Lemma unchanged_status_rewrite_counterexample :
  let body := job_body literal_match (Some "trace") ∅ false false in
  body trace_running seen = ([PrintStatus BLUE trace_running], inr (tt, seen)) ∧
  (∀ h, Store h 7 "running" ∉ [PrintStatus BLUE trace_running]) ∧
  body build_pending seen =
    ([], inr (tt, set_to_cancel (λ l, l ++ [build_pending]) seen)) ∧
  (∀ h, Store h 8 "pending" ∉ @nil event) ∧
  (∀ c, PrintStatus c build_pending ∉ @nil event).
Proof.
  simpl. split; [reflexivity|]. split.
  { intros h [[=] | H%elem_of_nil]%elem_of_cons. done. }
  split; [reflexivity|]. split; intros ?; apply not_elem_of_nil.
Qed.

(** A target job that is polled alternately as success and as failed. *)
Definition alternating (k : nat) : list job :=
  [if Nat.even k then trace_success else trace_failed].

Lemma stress_mode_never_returns_witness :
  ∃ out s',
    monitor_pipeline literal_match alternating (Some "trace") ∅ false
      true 4 = (out, Looping s') ∧
    stress_succ s' = 2 ∧
    stress_fail s' = 2 ∧
    tallies out = [(1, 0); (1, 1); (2, 1); (2, 2)] ∧
    PrintSeparator ∉ out.
Proof.
  destruct (proj2 (stress_mode_never_returns literal_match alternating
                     (Some "trace") ∅ false)) as (Hnever & _ & _).
  - intros k. apply statuses_known_check. unfold alternating.
    destruct (Nat.even k); reflexivity.
  - destruct (Hnever 4%nat) as (out & s' & Hrun & Hsucc & Hfail & Htal & Hsep).
    exists out, s'. split; [exact Hrun|]. split; [exact Hsucc|].
    split; [exact Hfail|]. split; [exact Htal | exact Hsep].
Defined.

Lemma handoff_exits_with_zero_witness :
  ∃ out,
    main literal_match (λ _, [trace_running; build_pending]) sample_decode
      failing_job
      (Some "trace") ∅ false false 1 2
    = (out, Returned 0).
Proof.
  eexists.
  refine (handoff_exits_with_zero literal_match
            (λ _, [trace_running; build_pending]) sample_decode failing_job
            (Some "trace") ∅ false false 1 2 _ 7 _ _ _ _).
  - vm_compute. reflexivity.
  - reflexivity.
  - vm_compute. reflexivity.
Defined.



End Examples.

(** * The further properties on concrete runs *)

Module Scenarios.

Import Examples.

(** A stand-in for [int]: it reads the one id used below. *)
Definition read_id (s : string) : option Z :=
  if String.eqb s "1234" then Some 1234 else None.

Definition trace_preparing := Job 7 "trace-test" "preparing" "https://ci/7".

Definition whole_pipeline (_ : nat) : list job :=
  [trace_running; build_pending; lint_manual; docs_success].

Definition failed_pipeline (_ : nat) : list job :=
  [build_a_failed; build_b_success; build_c_success].

Definition odd_pipeline (_ : nat) : list job :=
  [build_pending; trace_preparing; lint_manual].

Ltac find_event :=
  apply list_elem_of_In; simpl; repeat (first [left; reflexivity | right]).

Ltac not_a_status :=
  let H := fresh in
  intros H%list_in_spec; vm_compute in H; discriminate H.

Lemma pipeline_url_accepted_witness :
  parse_pipeline_url read_id
    "https://gitlab.freedesktop.org/mesa/mesa/-/pipelines/1234/builds"
  = inr ("mesa/mesa", 1234).
Proof.
  exact (pipeline_url_accepted read_id "" "mesa" "mesa" "1234" ["builds"]
           eq_refl).
Defined.

Lemma pipeline_url_accepted_only_witness :
  ∃ c0 ns proj idstr rest,
    "https://gitlab.freedesktop.org/mesa/mesa/-/pipelines/1234"
    = GITLAB_URL +:+ join "/" (pipeline_path c0 ns proj idstr rest) ∧
    forallb slash_free (c0 :: ns :: proj :: idstr :: rest) = true ∧
    "mesa/mesa" = ns +:+ "/" +:+ proj ∧
    read_id idstr = Some 1234.
Proof.
  apply (pipeline_url_accepted_only read_id
           "https://gitlab.freedesktop.org/mesa/mesa/-/pipelines/1234"
           "mesa/mesa" 1234).
  reflexivity.
Defined.

Lemma pipeline_url_rejected_witness :
  pipeline_from_url read_id (Some "http://example.org/mesa/mesa/-/pipelines/1")
  = Some (inl AssertionError) ∧
  pipeline_from_url read_id (Some "https://gitlab.freedesktop.org/mesa/mesa")
  = Some (inl IndexError) ∧
  pipeline_from_url read_id
    (Some "https://gitlab.freedesktop.org/group/sub/mesa/-/pipelines/1234")
  = Some (inl AssertionError).
Proof.
  destruct (pipeline_url_rejected read_id) as (_ & Hprefix & Hshort & Hdash).
  split; [|split].
  - apply Hprefix; [discriminate | reflexivity].
  - apply (Hshort [""; "mesa"; "mesa"]).
    + discriminate.
    + reflexivity.
    + simpl. lia.
  - apply (Hdash "" "group" "sub" "mesa" ["-"; "pipelines"; "1234"]).
    + reflexivity.
    + discriminate.
Defined.

Lemma status_line_or_key_error_witness :
  print_job_status trace_preparing start
  = ([], inl (KeyError "preparing")) ∧
  print_job_status_change trace_preparing start
  = ([], inl (KeyError "preparing")).
Proof.
  apply (proj2 (proj2 (status_line_or_key_error trace_preparing start))).
  not_a_status.
Defined.

Lemma cancel_only_unrelated_unfinished_witness :
  target_given (Some "trace") = true ∧
  ∃ k j, (k < 1)%nat ∧ j ∈ whole_pipeline k ∧ job_id j = 8 ∧
         matches_target literal_match (Some "trace") j = false ∧
         (job_name j ∉@{gset string} {["lint"]}) ∧
         job_status j ∉ ["canceled"; "success"; "failed"; "skipped"].
Proof.
  refine (cancel_only_unrelated_unfinished literal_match whole_pipeline
            (Some "trace") {["lint"]} false false 1 _ _ 8 _ _).
  - vm_compute. reflexivity.
  - find_event.
Defined.

Lemma retry_only_finished_targets_in_stress_witness :
  true = true ∧
  ∃ k j, (k < 1)%nat ∧ j ∈ alternating k ∧ job_id j = 7 ∧
         matches_target literal_match (Some "trace") j = true ∧
         (job_status j = "success" ∨ job_status j = "failed").
Proof.
  refine (retry_only_finished_targets_in_stress literal_match alternating
            (Some "trace") ∅ false true 1 _ _ 7 _ _).
  - vm_compute. reflexivity.
  - find_event.
Defined.

Lemma play_only_manual_jobs_witness :
  ∃ k j, (k < 1)%nat ∧ j ∈ whole_pipeline k ∧ job_id j = 9 ∧
         job_status j = "manual" ∧
         ((matches_target literal_match (Some "trace") j = true ∧
           false = true) ∨
          (matches_target literal_match (Some "trace") j = false ∧
           job_name j ∈@{gset string} {["lint"]})).
Proof.
  refine (play_only_manual_jobs literal_match whole_pipeline
            (Some "trace") {["lint"]} false false 1 _ _ 9 _ _).
  - vm_compute. reflexivity.
  - find_event.
Defined.

Lemma histories_hold_polled_statuses_witness :
  ∃ out s',
    monitor_pipeline literal_match alternating (Some "trace") ∅ false true 2
    = (out, Looping s') ∧
    ∀ i x, target_statuses s' !! i = Some x → x ∈ STATUSES.
Proof.
  eexists _, _. split; [vm_compute; reflexivity|].
  intros i x Hx.
  refine (proj1 (proj1 (histories_hold_polled_statuses literal_match
                          alternating (Some "trace") ∅ false true 2 _ _ _)
                   i x Hx)).
  vm_compute. reflexivity.
Defined.

Lemma monitor_loop_raises_only_key_error_witness :
  ∃ k j, (k < 1)%nat ∧ j ∈ odd_pipeline k ∧
         KeyError "preparing" = KeyError (job_status j) ∧
         job_status j ∉ STATUSES.
Proof.
  refine (monitor_loop_raises_only_key_error literal_match odd_pipeline
            (Some "trace") ∅ false false 1 _ (KeyError "preparing") _).
  vm_compute. reflexivity.
Defined.

Lemma monitor_returns_for_a_reason_witness :
  false = false ∧
  ((∃ i, (Some 7, @None Z) = (Some i, None) ∧
         ∃ k j, (k < 1)%nat ∧ j ∈ whole_pipeline k ∧
                matches_target literal_match (Some "trace") j = true ∧
                job_id j = i ∧ job_status j = "running") ∨
   ((Some 7, @None Z) = (None, Some 1) ∧
    ∃ k j, (k < 1)%nat ∧ j ∈ whole_pipeline k ∧
           matches_target literal_match (Some "trace") j = true ∧
           (job_status j = "failed" ∨ job_status j = "canceled")) ∨
   (Some 7, @None Z) = (None, Some 0)).
Proof.
  refine (monitor_returns_for_a_reason literal_match whole_pipeline
            (Some "trace") {["lint"]} false false 1 _ (Some 7, None) _).
  vm_compute. reflexivity.
Defined.

Lemma unknown_target_status_aborts_witness :
  ∃ out,
    monitor_loop literal_match odd_pipeline (Some "trace") ∅ false false
      1 0 start
    = (out, Raised (KeyError "preparing")) ∧
    cancels out = [].
Proof.
  apply (unknown_target_status_aborts literal_match odd_pipeline
           (Some "trace") ∅ false false 0 0 start
           [build_pending] trace_preparing [lint_manual]).
  - reflexivity.
  - apply statuses_known_check. reflexivity.
  - reflexivity.
  - not_a_status.
Defined.

Lemma start_known : hist_known start.
Proof. by intros [] i x. Qed.

Lemma scan_records_polled_statuses_witness :
  ∃ out s',
    dispatch literal_match whole_pipeline (Some "trace") {["lint"]}
      false false 0 start
    = (out, inr (tt, s')) ∧
    target_statuses s' !! 7 = Some "running" ∧
    statuses s' !! 8 = Some "pending".
Proof.
  eexists _, _. split; [vm_compute; reflexivity|].
  assert (NoDup (job_id <$> whole_pipeline 0)) as Hnd.
  { apply (bool_decide_unpack _). vm_compute. exact I. }
  assert (∀ j, j ∈ whole_pipeline 0 → job_status j ∈ STATUSES) as Hst.
  { apply statuses_known_check. reflexivity. }
  split.
  - refine (proj1 (scan_records_polled_statuses literal_match whole_pipeline
                     (Some "trace") {["lint"]} false false 0 start _ _
                     Hnd Hst start_known _) trace_running _).
    + vm_compute. reflexivity.
    + find_event.
  - refine (proj1 (scan_records_polled_statuses literal_match whole_pipeline
                     (Some "trace") {["lint"]} false false 0 start _ _
                     Hnd Hst start_known _) build_pending _).
    + vm_compute. reflexivity.
    + find_event.
Defined.

Lemma repoll_changes_nothing_witness :
  ∃ o1 s1 o2 s2,
    dispatch literal_match whole_pipeline (Some "trace") {["lint"]}
      false true 0 start
    = (o1, inr (tt, s1)) ∧
    dispatch literal_match whole_pipeline (Some "trace") {["lint"]}
      false true 1 s1
    = (o2, inr (tt, s2)) ∧
    stores o2 = [] ∧
    target_statuses s2 = target_statuses s1.
Proof.
  assert (∃ o1 s1,
            dispatch literal_match whole_pipeline (Some "trace") {["lint"]}
              false true 0 start = (o1, inr (tt, s1))) as (o1 & s1 & E1).
  { eexists _, _. vm_compute. reflexivity. }
  assert (NoDup (job_id <$> whole_pipeline 0)) as Hnd.
  { apply (bool_decide_unpack _). vm_compute. exact I. }
  assert (∀ j, j ∈ whole_pipeline 0 → job_status j ∈ STATUSES) as Hst.
  { apply statuses_known_check. reflexivity. }
  destruct (repoll_changes_nothing literal_match whole_pipeline
              (Some "trace") {["lint"]} false true 0 1 start o1 s1
              eq_refl Hnd Hst start_known E1)
    as (o2 & s2 & Hscan & Hstores & _ & _ & Hts).
  exists o1, s1, o2, s2. by repeat split.
Defined.

Lemma stress_counters_count_polls_witness :
  ∃ out s',
    monitor_loop literal_match alternating (Some "trace") ∅ false true
      4 0 start
    = (out, Looping s') ∧
    stress_succ s' = 2 ∧ stress_fail s' = 2.
Proof.
  destruct (stress_counters_count_polls literal_match alternating
              (Some "trace") ∅ false 4) with (k := 0%nat) (s := start)
    as (out & s' & Hloop & Hsucc & Hfail).
  - intros k. apply statuses_known_check. unfold alternating.
    destruct (Nat.even k); reflexivity.
  - exists out, s'. split; [exact Hloop|]. split; [exact Hsucc | exact Hfail].
Defined.

Lemma exit_status_is_zero_or_one_witness :
  false = false ∧
  (1 = 0 ∨
   (1 = 1 ∧
    ∃ k j, (k < 1)%nat ∧ j ∈ failed_pipeline k ∧
           matches_target literal_match (Some "build") j = true ∧
           (job_status j = "failed" ∨ job_status j = "canceled"))).
Proof.
  refine (exit_status_is_zero_or_one literal_match failed_pipeline
            sample_decode failing_job (Some "build") ∅ false false 1 0 _ 1 _).
  vm_compute. reflexivity.
Defined.

End Scenarios.
